(** * Linly-Dubbing, tools/video_splitter.py: duration parsing, segment
    planning and segment materialisation.

    The development embeds the three functions of [tools/video_splitter.py]
    ([parse_duration_to_seconds], [split_video] and [main]) together with the
    Python built-ins they rely on, and proves properties of the embedding.

    Modelling conventions.
    - A Python [str] is a list of characters.  Characters are the code points
      0..255 (Latin-1), carried by [ascii]; the classification tables
      ([isspace], [isdigit], [lower]) are the Unicode ones restricted to that
      range.
    - A Python [int] is a [Z].
    - A Python [float] is either a finite dyadic rational [m * 2^e], an
      infinity or a NaN.  Signed zeros are not distinguished.
    - Exceptions are values of [exn]; a fallible pure computation returns a
      [result].
    - The interpreter converts no decimal text of more than 4300 digits to
      an integer, and no integer of more than 4300 digits to its decimal
      text ([sys.int_info.default_max_str_digits]); both raise [ValueError].
      [int] has the limit, so every conversion of the parser has it.  Of
      the integers a run writes, the maximum length is the only one that can
      be that long, and the check is made where it is first written (line
      81 of [split_video]); the floored duration, the count of parts and the
      numbers, starts and lengths of the parts are bounded by the range of
      binary64 or by the maximum, and are written without the check.
    - The outside world (file system, [ffprobe], [ffmpeg]) is a state [W]
      behind the interface [Host]; [os.path] is part of that interface, since
      it depends on the platform, and the working directory is fixed during
      a run.  A program is a function from the world to an outcome (a
      returned value, a raised exception or [sys.exit]), the world it leaves
      and the trace of its interactions with the host, in order.  Printing
      does not fail and does not change the world; the printed lines are
      recorded by the statement that prints them, not by their text. *)

From Stdlib Require Import ZArith List String Ascii Bool Lia.
From Stdlib Require Import DecimalString DecimalPos DecimalZ FinFun.
Import ListNotations.

Local Open Scope Z_scope.

(** ** Exceptions and fallible results *)

Inductive exn : Type :=
| ValueError
| RuntimeError
| OverflowError
| ZeroDivisionError
| FileNotFoundError
| FileExistsError
| PermissionError
| OSError.

Inductive result (A : Type) : Type :=
| Ok (a : A)
| Raise (e : exn).

Arguments Ok {A} a.
Arguments Raise {A} e.

Definition rbind {A B : Type} (r : result A) (k : A -> result B) : result B :=
  match r with
  | Ok a => k a
  | Raise e => Raise e
  end.

Declare Scope result_scope.
Delimit Scope result_scope with result.
Notation "'let?' x ':=' r 'in' k" := (rbind r (fun x => k))
  (at level 10, x name, r at level 100, k at level 200) : result_scope.

(** ** Python strings *)

Module Str.

Definition str : Type := list ascii.

(** A string literal of the source. *)
Definition py (s : string) : str := list_ascii_of_string s.

Definition code (c : ascii) : Z := Z.of_N (N_of_ascii c).

Definition between (lo hi n : Z) : bool := (lo <=? n) && (n <=? hi).

(** [str.isspace] on one character. *)
Definition isspace (c : ascii) : bool :=
  let n := code c in
  between 9 13 n || between 28 32 n || (n =? 133) || (n =? 160).

(** [str.isdigit] on one character: the decimal digits and the three
    superscript digits of Latin-1. *)
Definition isdigit (c : ascii) : bool :=
  let n := code c in
  between 48 57 n || (n =? 178) || (n =? 179) || (n =? 185).

(** Characters with a decimal value, the ones [int()] accepts. *)
Definition isdecimal (c : ascii) : bool := between 48 57 (code c).

Definition digit_value (c : ascii) : Z := code c - 48.

(** [str.lower] on one character. *)
Definition lower_char (c : ascii) : ascii :=
  let n := code c in
  if between 65 90 n || (between 192 222 n && negb (n =? 215))
  then ascii_of_N (Z.to_N (n + 32))
  else c.

Definition lower (s : str) : str := map lower_char s.

Fixpoint lstrip_with (sp : ascii -> bool) (s : str) : str :=
  match s with
  | [] => []
  | c :: r => if sp c then lstrip_with sp r else s
  end.

Definition strip_with (sp : ascii -> bool) (s : str) : str :=
  rev (lstrip_with sp (rev (lstrip_with sp s))).

(** [str.strip()] *)
Definition strip (s : str) : str := strip_with isspace s.

(** [sub in s] for a one-character [sub]. *)
Definition contains (c : ascii) (s : str) : bool := existsb (Ascii.eqb c) s.

(** [s.split(sep)] for a one-character separator. *)
Fixpoint split (sep : ascii) (s : str) : list str :=
  match s with
  | [] => [[]]
  | c :: r =>
      if Ascii.eqb c sep then [] :: split sep r
      else match split sep r with
           | [] => [[c]]
           | p :: ps => (c :: p) :: ps
           end
  end.

Fixpoint startswith (pre s : str) : bool :=
  match pre, s with
  | [], _ => true
  | _ :: _, [] => false
  | a :: pre', b :: s' => Ascii.eqb a b && startswith pre' s'
  end.

(** [s.endswith(suf)] *)
Definition endswith (suf s : str) : bool := startswith (rev suf) (rev s).

(** [s.isdigit()]: every character is a digit and there is at least one. *)
Definition str_isdigit (s : str) : bool :=
  match s with
  | [] => false
  | _ => forallb isdigit s
  end.

(** The whitespace [int()] strips: the C-level ASCII white space, and the
    non-ASCII Unicode white space it first rewrites to a blank. *)
Definition int_space (c : ascii) : bool :=
  let n := code c in
  between 9 13 n || (n =? 32) || (n =? 133) || (n =? 160).

(** The digit part of an [int()] literal in base 10: decimal digits, single
    underscores allowed between two digits. *)
Fixpoint int_digits (acc : Z) (after_digit : bool) (s : str) : option Z :=
  match s with
  | [] => if after_digit then Some acc else None
  | c :: r =>
      if isdecimal c then int_digits (10 * acc + digit_value c) true r
      else if Ascii.eqb c "_" && after_digit then int_digits acc false r
      else None
  end.

(** The value of a base-10 literal of [int()]: white space around it, a
    sign, then the digits; nothing when the text is not a literal. *)
Definition int_literal (s : str) : option Z :=
  let t := strip_with int_space s in
  match t with
  | c :: r =>
      if Ascii.eqb c "-" then option_map Z.opp (int_digits 0 false r)
      else if Ascii.eqb c "+" then int_digits 0 false r
      else int_digits 0 false t
  | [] => None
  end.

(** The limit on the digits of a decimal text that is converted to or from
    an integer: [sys.int_info.default_max_str_digits], which is the limit
    in force unless the interpreter is told otherwise, and
    [sys.int_info.str_digits_check_threshold], under which no check is
    made.  A limit of 0 switches the check off. *)
Definition default_max_str_digits : nat := 4300.
Definition str_digits_check_threshold : nat := 640.

Definition exceeds_limit (max_str_digits digits : nat) : bool :=
  (0 <? max_str_digits)%nat && (str_digits_check_threshold <? digits)%nat
  && (max_str_digits <? digits)%nat.

(** [int(s)] under the limit [max_str_digits]: a literal with more digits
    than the limit is refused with [ValueError], as is a text that is not a
    literal.  Signs, white space and underscores do not count as digits;
    leading zeros do. *)
Definition int_with (max_str_digits : nat) (s : str) : result Z :=
  match int_literal s with
  | Some v =>
      if exceeds_limit max_str_digits (List.length (filter isdecimal s))
      then Raise ValueError
      else Ok v
  | None => Raise ValueError
  end.

(** [int(s)] *)
Definition int (s : str) : result Z := int_with default_max_str_digits s.

(** [str(n)] for an integer. *)
Definition str_of_Z (n : Z) : str :=
  list_ascii_of_string (NilZero.string_of_int (Z.to_int n)).

(** The format [{n:03d}]: sign, then the digits padded with zeros to a total
    width of three. *)
Definition format_03d (n : Z) : str :=
  let digits := str_of_Z (Z.abs n) in
  let sign := if n <? 0 then ["-"%char] else [] in
  let width := (3 - List.length sign)%nat in
  sign ++ repeat "0"%char (width - List.length digits) ++ digits.

(** The check [str(n)], an f-string or [json.dump] makes when it writes an
    integer in decimal: the digits of [n], without the sign, are counted
    against the limit. *)
Definition str_checked (n : Z) : result str :=
  if exceeds_limit default_max_str_digits (List.length (str_of_Z (Z.abs n)))
  then Raise ValueError
  else Ok (str_of_Z n).

End Str.
Import Str.

(** ** The duration parser *)

Local Open Scope result_scope.

(** The characters of [s] that are digits, joined: the comprehension
    ["".join([c for c in s if c.isdigit()])]. *)
Definition digits_of (s : str) : str := filter isdigit s.

Definition parse_duration_to_seconds (s : str) : result Z :=
  let s := lower (strip s) in
  if contains ":" s then
    match split ":" s with
    | [h; m; sec] =>
        let? h := int h in
        let? m := int m in
        let? sec := int sec in
        Ok (h * 3600 + m * 60 + sec)
    | _ => Raise ValueError
    end
  else if endswith (py "s") s || endswith (py " sec") s then
    int (digits_of s)
  else if endswith (py "m") s || endswith (py " min") s then
    let? v := int (digits_of s) in Ok (v * 60)
  else if endswith (py "h") s || endswith (py " hr") s
          || endswith (py " hour") s then
    let? v := int (digits_of s) in Ok (v * 3600)
  else if str_isdigit s then int s
  else Raise ValueError.

(** ** Python floats and the arithmetic of the planner *)

Module PyFloat.

(** A binary64 value: [Finite m e] stands for [m * 2^e]. *)
Inductive float : Type :=
| Finite (m e : Z)
| Inf (negative : bool)
| NaN.

(** [math.floor(x)]: exact, an integer of any size; fails on the specials. *)
Definition math_floor (x : float) : result Z :=
  match x with
  | Finite m e => Ok (if 0 <=? e then m * 2 ^ e else m / 2 ^ (- e))
  | Inf _ => Raise OverflowError
  | NaN => Raise ValueError
  end.

(** [math.ceil(x)] *)
Definition math_ceil (x : float) : result Z :=
  match x with
  | Finite m e => Ok (if 0 <=? e then m * 2 ^ e else - ((- m) / 2 ^ (- e)))
  | Inf _ => Raise OverflowError
  | NaN => Raise ValueError
  end.

(** The integer nearest to [n / d], ties to the even one ([0 <= n], [0 < d]). *)
Definition round_half_even (n d : Z) : Z :=
  let q := n / d in
  let r := n mod d in
  if 2 * r <? d then q
  else if d <? 2 * r then q + 1
  else if Z.even q then q else q + 1.

(** [floor (log2 (a / b))] for positive [a] and [b]. *)
Definition quotient_exponent (a b : Z) : Z :=
  let d := Z.log2 a - Z.log2 b in
  if (if 0 <=? d then b * 2 ^ d <=? a else b <=? a * 2 ^ (- d))
  then d else d - 1.

(** The binary64 value nearest to [a / b] for positive [a] and [b], as a
    significand of at most 53 bits and an exponent no smaller than the one
    of the subnormals. *)
Definition round_quotient (a b : Z) : Z * Z :=
  let e := Z.max (quotient_exponent a b - 52) (- 1074) in
  let m := if 0 <=? e then round_half_even a (b * 2 ^ e)
           else round_half_even (a * 2 ^ (- e)) b in
  (m, e).

(** [m * 2^e] is beyond the largest finite binary64 value. *)
Definition overflows (m e : Z) : bool :=
  if 0 <=? e then 2 ^ 1024 <=? m * 2 ^ e else 2 ^ 1024 * 2 ^ (- e) <=? m.

(** [a / b] on two integers: the correctly rounded quotient of the exact
    integers, as CPython computes it. *)
Definition true_divide (a b : Z) : result float :=
  if b =? 0 then Raise ZeroDivisionError
  else if a =? 0 then Ok (Finite 0 0)
  else
    let '(m, e) := round_quotient (Z.abs a) (Z.abs b) in
    if overflows m e then Raise OverflowError
    else Ok (Finite (Z.sgn a * Z.sgn b * m) e).

(** The binary64 value of the literal [119.9], [0x1.df9999999999ap+6]. *)
Definition float_119_9 : float := Finite 8437212426901914 (- 46).

End PyFloat.
Import PyFloat.

(** [range(n)] *)
Definition py_range (n : Z) : list Z := map Z.of_nat (seq 0 (Z.to_nat n)).

(** [math.ceil(total_seconds_int / max_part_seconds)] *)
Definition num_parts_of (total_seconds_int max_part_seconds : Z) : result Z :=
  let? q := true_divide total_seconds_int max_part_seconds in math_ceil q.

(** [timedelta(seconds=s)]: the number of days must fit the type. *)
Definition timedelta_seconds (s : Z) : result unit :=
  let days := s / 86400 in
  if (- 999999999 <=? days) && (days <=? 999999999) then Ok tt
  else Raise OverflowError.

(** The start and the length of the part the loop computes at iteration [i]
    (lines 87 to 89). *)
Definition part_start (max_part_seconds i : Z) : Z := i * max_part_seconds.

Definition part_duration (total_seconds_int max_part_seconds i : Z) : Z :=
  let remaining := total_seconds_int - part_start max_part_seconds i in
  if remaining >? max_part_seconds then max_part_seconds else remaining.

(** ** Data exchanged with the host *)

(** The [info] dictionary written next to each part. *)
Record Info : Type := {
  index : Z;
  start_seconds : Z;
  duration_seconds : Z;
  end_seconds : Z;
  source_file : str
}.

(** The dictionary [split_video] returns. *)
Record Summary : Type := {
  total_seconds : Z;
  max_part_seconds : Z;
  num_parts : Z;
  output_root : str;
  outputs : list str
}.

(** What [subprocess.run] hands back. *)
Record CompletedProcess : Type := {
  returncode : Z;
  stdout : str;
  stderr : str
}.

(** The lines the program prints, by the statement that prints them. *)
Inductive message : Type :=
| MsgSource (input_path : str)
| MsgTotal (total : Z)
| MsgMax (max_seconds : Z)
| MsgNumParts (n : Z)
| MsgOutputDir (root : str)
| MsgDryRun (out_file : str) (start duration : Z)
| MsgSkip (out_file : str)
| MsgExec (cmd : list str)
| MsgFail (part : Z) (err : str)
| MsgDone
| MsgInputMissing (input_path : str)
| MsgError (e : exn)
| MsgMaxNotPositive
| MsgDryRunResult
| MsgSummary (s : Summary)
| MsgInstallHint (e : exn).

(** One interaction of the program with its host, with the host's answer. *)
Inductive event : Type :=
| EvRun (cmd : list str) (r : result CompletedProcess)
| EvMakeDirs (path : str) (err : option exn)
| EvExists (path : str) (found : bool)
| EvRemove (path : str) (err : option exn)
| EvWrite (path : str) (info : Info) (err : option exn)
| EvPrint (m : message).

(** The host the program runs on: [os.path], the file system calls, process
    creation and the [float()] parser, over a state [W] of the outside world.
    [os.path] depends on the platform and is left abstract. *)
Record Host (W : Type) : Type := {
  path_join : str -> str -> str;
  path_dirname : str -> str;
  path_basename : str -> str;
  path_splitext : str -> str;
  path_abspath : str -> str;
  path_exists : str -> W -> bool;
  makedirs : str -> W -> W * option exn;
  remove : str -> W -> W * option exn;
  write_json : str -> Info -> W -> W * option exn;
  subprocess_run : list str -> W -> W * result CompletedProcess;
  float_of_str : str -> option float
}.

Arguments path_join {W} _ _ _.
Arguments path_dirname {W} _ _.
Arguments path_basename {W} _ _.
Arguments path_splitext {W} _ _.
Arguments path_abspath {W} _ _.
Arguments path_exists {W} _ _ _.
Arguments makedirs {W} _ _ _.
Arguments remove {W} _ _ _.
Arguments write_json {W} _ _ _ _.
Arguments subprocess_run {W} _ _ _.
Arguments float_of_str {W} _ _.

(** ** The monad of the program: state of the world, trace of events, and
    three ways to stop *)

Inductive outcome (A : Type) : Type :=
| Returned (a : A)
| Raised (e : exn)
| Exited (status : Z).

Arguments Returned {A} a.
Arguments Raised {A} e.
Arguments Exited {A} status.

Definition M (W A : Type) : Type := W -> outcome A * W * list event.

Definition ret {W A : Type} (a : A) : M W A := fun w => (Returned a, w, []).

Definition bind {W A B : Type} (m : M W A) (k : A -> M W B) : M W B :=
  fun w =>
    match m w with
    | (Returned a, w1, t1) =>
        match k a w1 with
        | (r, w2, t2) => (r, w2, t1 ++ t2)
        end
    | (Raised e, w1, t1) => (Raised e, w1, t1)
    | (Exited c, w1, t1) => (Exited c, w1, t1)
    end.

Definition raise {W A : Type} (e : exn) : M W A := fun w => (Raised e, w, []).

(** [sys.exit(status)] *)
Definition sys_exit {W A : Type} (status : Z) : M W A :=
  fun w => (Exited status, w, []).

Definition lift {W A : Type} (r : result A) : M W A :=
  match r with
  | Ok a => ret a
  | Raise e => raise e
  end.

Declare Scope prog_scope.
Delimit Scope prog_scope with prog.
Notation "x <- m ;; k" := (bind m (fun x => k))
  (at level 61, m at next level, right associativity) : prog_scope.
Notation "m ;; k" := (bind m (fun _ => k))
  (at level 61, right associativity) : prog_scope.

Section Program.

Context {W : Type} (host : Host W).

Local Open Scope prog_scope.

Definition print (m : message) : M W unit :=
  fun w => (Returned tt, w, [EvPrint m]).

Definition os_path_exists (p : str) : M W bool :=
  fun w => let b := path_exists host p w in (Returned b, w, [EvExists p b]).

Definition answer (err : option exn) : outcome unit :=
  match err with
  | None => Returned tt
  | Some e => Raised e
  end.

(** [os.makedirs(path, exist_ok=True)] *)
Definition ensure_dir (p : str) : M W unit :=
  fun w => let '(w', err) := makedirs host p w in
           (answer err, w', [EvMakeDirs p err]).

(** [try: os.remove(p) except Exception: pass] *)
Definition try_remove (p : str) : M W unit :=
  fun w => let '(w', err) := remove host p w in
           (Returned tt, w', [EvRemove p err]).

(** [with open(p, "w") as f: json.dump(info, f, ...)] *)
Definition dump_info (p : str) (info : Info) : M W unit :=
  fun w => let '(w', err) := write_json host p info w in
           (answer err, w', [EvWrite p info err]).

(** [subprocess.run(cmd, ...)] with the output captured. *)
Definition run (cmd : list str) : M W CompletedProcess :=
  fun w => let '(w', r) := subprocess_run host cmd w in
           (match r with Ok p => Returned p | Raise e => Raised e end,
            w', [EvRun cmd r]).

Definition ffprobe_cmd (input_path : str) : list str :=
  [py "ffprobe"; py "-v"; py "error"; py "-show_entries";
   py "format=duration"; py "-of";
   py "default=noprint_wrappers=1:nokey=1"; input_path].

Definition ffprobe_duration_seconds (input_path : str) : M W float :=
  r <- run (ffprobe_cmd input_path) ;;
  if negb (returncode r =? 0) then raise RuntimeError
  else match float_of_str host (strip (stdout r)) with
       | Some x => ret x
       | None => raise RuntimeError
       end.

Definition part_name (i : Z) : str := py "part_" ++ format_03d (i + 1).

Definition part_dir_of (root : str) (i : Z) : str :=
  path_join host root (part_name i).

Definition out_file_of (root : str) (i : Z) : str :=
  path_join host (part_dir_of root i) (part_name i ++ py ".mp4").

Definition info_path_of (root : str) (i : Z) : str :=
  path_join host (part_dir_of root i) (py "info.json").

Definition info_of (input_path : str) (total max_seconds i : Z) : Info :=
  let start := part_start max_seconds i in
  let duration := part_duration total max_seconds i in
  {| index := i + 1;
     start_seconds := start;
     duration_seconds := duration;
     end_seconds := start + duration;
     source_file := path_abspath host input_path |}.

Definition ffmpeg_cmd (input_path out_file : str) (start duration : Z)
  : list str :=
  [py "ffmpeg"; py "-ss"; str_of_Z start; py "-i"; input_path;
   py "-t"; str_of_Z duration; py "-c"; py "copy"; out_file;
   py "-y"; py "-threads"; py "2"].

(** One turn of the loop of [split_video] (lines 87 to 141), from the list
    [created] so far to the list afterwards. *)
Definition split_part (input_path : str) (total max_seconds : Z) (root : str)
    (overwrite dry_run : bool) (i : Z) (created : list str)
  : M W (list str) :=
  let start := part_start max_seconds i in
  let duration := part_duration total max_seconds i in
  let part_dir := part_dir_of root i in
  ensure_dir part_dir ;;
  let out_file := out_file_of root i in
  let info_path := info_path_of root i in
  let info := info_of input_path total max_seconds i in
  if dry_run then
    print (MsgDryRun out_file start duration) ;;
    ret created
  else
    let transcode : M W (list str) :=
      let cmd := ffmpeg_cmd input_path out_file start duration in
      print (MsgExec cmd) ;;
      proc <- run cmd ;;
      if negb (returncode proc =? 0) then
        print (MsgFail (i + 1) (stderr proc)) ;;
        sys_exit 1
      else
        dump_info info_path info ;;
        ret (created ++ [out_file]) in
    found <- os_path_exists out_file ;;
    if found then
      if overwrite then
        try_remove out_file ;;
        transcode
      else
        print (MsgSkip out_file) ;;
        let created := created ++ [out_file] in
        dump_info info_path info ;;
        ret created
    else transcode.

(** The loop [for i in range(num_parts)]. *)
Fixpoint split_parts (input_path : str) (total max_seconds : Z) (root : str)
    (overwrite dry_run : bool) (idxs : list Z) (created : list str)
  : M W (list str) :=
  match idxs with
  | [] => ret created
  | i :: rest =>
      created <- split_part input_path total max_seconds root
                   overwrite dry_run i created ;;
      split_parts input_path total max_seconds root overwrite dry_run
        rest created
  end.

(** The output root in use: the one given, or, when it is [None] or empty,
    the directory [<base name>_split] next to the input. *)
Definition resolve_output_root (input_path : str) (output_root : option str)
  : str :=
  let base_name := path_splitext host (path_basename host input_path) in
  let default :=
    path_join host (path_dirname host input_path) (base_name ++ py "_split") in
  match output_root with
  | None => default
  | Some [] => default
  | Some r => r
  end.

(** [split_video].  The two steps that only compute come where the source
    evaluates them: [timedelta(seconds=...)] and the decimal text of the
    maximum are arguments of the prints of lines 80 and 81, and raise
    before their line is printed. *)
Definition split_video (input_path : str) (max_seconds : Z)
    (output_root : option str) (overwrite dry_run : bool) : M W Summary :=
  total_seconds <- ffprobe_duration_seconds input_path ;;
  total_seconds_int <- lift (math_floor total_seconds) ;;
  n <- lift (num_parts_of total_seconds_int max_seconds) ;;
  let root := resolve_output_root input_path output_root in
  ensure_dir root ;;
  print (MsgSource input_path) ;;
  lift (timedelta_seconds total_seconds_int) ;;
  print (MsgTotal total_seconds_int) ;;
  lift (str_checked max_seconds) ;;
  print (MsgMax max_seconds) ;;
  print (MsgNumParts n) ;;
  print (MsgOutputDir root) ;;
  created <- split_parts input_path total_seconds_int max_seconds root
               overwrite dry_run (py_range n) [] ;;
  print MsgDone ;;
  ret {| total_seconds := total_seconds_int;
         max_part_seconds := max_seconds;
         num_parts := n;
         output_root := path_abspath host root;
         outputs := created |}.

(** The parsed command line. *)
Record Args : Type := {
  arg_input : str;
  arg_max : str;
  arg_output_dir : option str;
  arg_overwrite : bool;
  arg_dry_run : bool
}.

(** [try: m except FileNotFoundError as e: handler] *)
Definition except_file_not_found {A : Type} (m : M W A)
    (handler : exn -> M W A) : M W A :=
  fun w =>
    match m w with
    | (Raised FileNotFoundError, w1, t1) =>
        match handler FileNotFoundError w1 with
        | (r, w2, t2) => (r, w2, t1 ++ t2)
        end
    | other => other
    end.

Definition main (args : Args) : M W unit :=
  let input_path := arg_input args in
  found <- os_path_exists input_path ;;
  if negb found then
    print (MsgInputMissing input_path) ;;
    sys_exit 1
  else
    match parse_duration_to_seconds (arg_max args) with
    | Raise e =>
        print (MsgError e) ;;
        sys_exit 1
    | Ok max_seconds =>
        if max_seconds <=? 0 then
          print MsgMaxNotPositive ;;
          sys_exit 1
        else
          except_file_not_found
            (summary <- split_video input_path max_seconds
                          (arg_output_dir args) (arg_overwrite args)
                          (arg_dry_run args) ;;
             if arg_dry_run args then
               print MsgDryRunResult ;;
               print (MsgSummary summary)
             else ret tt)
            (fun e => print (MsgInstallHint e) ;; sys_exit 1)
    end.

End Program.

(** ** A concrete host

    A small POSIX-flavoured host on which the program can be run: a set of
    directories, a set of media files, the metadata files with their
    content, the exit codes the next [ffmpeg] runs will give, and the text
    [ffprobe] prints. *)

Module Demo.

Record world : Type := {
  dirs : list str;
  files : list str;
  metadata : list (str * Info);
  ffmpeg_codes : list Z;
  ffprobe_stdout : str
}.

Fixpoint eqb_str (a b : str) : bool :=
  match a, b with
  | [], [] => true
  | x :: a', y :: b' => Ascii.eqb x y && eqb_str a' b'
  | _, _ => false
  end.

Definition mem (p : str) (l : list str) : bool := existsb (eqb_str p) l.

Definition add (p : str) (l : list str) : list str :=
  if mem p l then l else l ++ [p].

Definition join (a b : str) : str :=
  if startswith (py "/") b then b
  else match a with
       | [] => b
       | _ => if endswith (py "/") a then a ++ b else a ++ py "/" ++ b
       end.

Definition basename (p : str) : str := last (split "/" p) [].

Definition dirname (p : str) : str :=
  let head := firstn (List.length p - List.length (basename p) - 1) p in
  match head with
  | [] => if startswith (py "/") p then py "/" else []
  | _ => head
  end.

Definition splitext (p : str) : str :=
  match split "." p with
  | [_] => p
  | parts =>
      let root :=
        firstn (List.length p - List.length (last parts []) - 1) p in
      match root with
      | [] => p
      | _ => root
      end
  end.

Definition abspath (p : str) : str :=
  if startswith (py "/") p then p else py "/work/" ++ p.

(** The directory [p] and the directories above it. *)
Fixpoint lineage (fuel : nat) (p : str) : list str :=
  match fuel with
  | O => []
  | S fuel' =>
      match p with
      | [] => []
      | _ => if eqb_str (dirname p) p then [p]
             else lineage fuel' (dirname p) ++ [p]
      end
  end.

Definition exists_ (p : str) (w : world) : bool :=
  mem p (dirs w) || mem p (files w) || mem p (map fst (metadata w)).

Definition make_dirs (p : str) (w : world) : world * option exn :=
  if mem p (files w) || mem p (map fst (metadata w))
  then (w, Some FileExistsError)
  else ({| dirs := fold_left (fun l d => add d l)
                     (lineage (S (List.length p)) p) (dirs w);
           files := files w;
           metadata := metadata w;
           ffmpeg_codes := ffmpeg_codes w;
           ffprobe_stdout := ffprobe_stdout w |}, None).

Definition remove_file (p : str) (w : world) : world * option exn :=
  if mem p (files w)
  then ({| dirs := dirs w;
           files := filter (fun q => negb (eqb_str p q)) (files w);
           metadata := metadata w;
           ffmpeg_codes := ffmpeg_codes w;
           ffprobe_stdout := ffprobe_stdout w |}, None)
  else (w, Some FileNotFoundError).

Definition write_record (p : str) (info : Info) (w : world)
  : world * option exn :=
  if mem (dirname p) (dirs w)
  then ({| dirs := dirs w;
           files := files w;
           metadata :=
             filter (fun e => negb (eqb_str p (fst e))) (metadata w)
             ++ [(p, info)];
           ffmpeg_codes := ffmpeg_codes w;
           ffprobe_stdout := ffprobe_stdout w |}, None)
  else (w, Some FileNotFoundError).

Definition spawn (cmd : list str) (w : world)
  : world * result CompletedProcess :=
  match cmd with
  | prog :: _ =>
      if eqb_str prog (py "ffprobe") then
        (w, Ok {| returncode := 0;
                  stdout := ffprobe_stdout w ++ [ascii_of_nat 10];
                  stderr := [] |})
      else if eqb_str prog (py "ffmpeg") then
        let code := hd 0 (ffmpeg_codes w) in
        let out_file := nth 9 cmd [] in
        ({| dirs := dirs w;
            files := if code =? 0 then add out_file (files w) else files w;
            metadata := metadata w;
            ffmpeg_codes := tl (ffmpeg_codes w);
            ffprobe_stdout := ffprobe_stdout w |},
         Ok {| returncode := code;
               stdout := [];
               stderr := if code =? 0 then [] else py "conversion failed" |})
      else (w, Raise FileNotFoundError)
  | [] => (w, Raise ValueError)
  end.

(** [float()] on unsigned decimal literals [ddd] and [ddd.ddd]: the binary64
    value nearest to the decimal one. *)
Definition parse_float (s : str) : option float :=
  match split "." s with
  | [whole] =>
      match int_digits 0 false whole with
      | Some n => if forallb isdecimal whole then Some (Finite n 0) else None
      | None => None
      end
  | [whole; frac] =>
      if forallb isdecimal (whole ++ frac) then
        match int_digits 0 false (whole ++ frac) with
        | Some n =>
            match true_divide n (10 ^ Z.of_nat (List.length frac)) with
            | Ok x => Some x
            | Raise _ => None
            end
        | None => None
        end
      else None
  | _ => None
  end.

Definition host : Host world := {|
  path_join := join;
  path_dirname := dirname;
  path_basename := basename;
  path_splitext := splitext;
  path_abspath := abspath;
  path_exists := exists_;
  makedirs := make_dirs;
  remove := remove_file;
  write_json := write_record;
  subprocess_run := spawn;
  float_of_str := parse_float
|}.

(** A world with the input [/v/talk.mp4] of the duration [ffprobe] prints,
    no output yet, and the given exit codes for the coming [ffmpeg] runs. *)
Definition fresh (duration : string) (codes : list Z) : world := {|
  dirs := [py "/"; py "/v"];
  files := [py "/v/talk.mp4"];
  metadata := [];
  ffmpeg_codes := codes;
  ffprobe_stdout := py duration
|}.

Definition talk : str := py "/v/talk.mp4".

End Demo.

(** * Vocabulary of the statements *)

(** The value of a string of decimal digits. *)
Definition decimal_value (ds : str) : Z :=
  fold_left (fun acc c => 10 * acc + digit_value c) ds 0.

(** The exact ceiling of [a / b] for a positive [b]. *)
Definition ceil_div (a b : Z) : Z := (a + b - 1) / b.

(** The descriptor (index, start, length, end) of the part handled at
    iteration [i] of the loop. *)
Definition descriptor (total max_seconds i : Z) : Z * Z * Z * Z :=
  (i + 1,
   part_start max_seconds i,
   part_duration total max_seconds i,
   part_start max_seconds i + part_duration total max_seconds i).

(** The plan of [split_video]: the descriptors of the iterations of its
    loop, in order. *)
Definition plan_of (total max_seconds : Z) : result (list (Z * Z * Z * Z)) :=
  let? n := num_parts_of total max_seconds in
  Ok (map (descriptor total max_seconds) (py_range n)).

(** The descriptor a metadata record holds. *)
Definition descriptor_of (j : Info) : Z * Z * Z * Z :=
  (index j, start_seconds j, duration_seconds j, end_seconds j).

(** The events of a dry turn: a directory is made and a line is printed. *)
Definition quiet (e : event) : Prop :=
  match e with
  | EvMakeDirs _ _ | EvPrint _ => True
  | _ => False
  end.

(** The metadata records written in a trace, in order. *)
Definition records_written (t : list event) : list Info :=
  flat_map (fun e => match e with
                     | EvWrite _ j _ => [j]
                     | _ => []
                     end) t.

(** The events a dry run may produce. *)
Definition dry_event (input_path : str) (e : event) : Prop :=
  match e with
  | EvRun cmd _ => cmd = ffprobe_cmd input_path
  | EvMakeDirs _ _ | EvPrint _ => True
  | _ => False
  end.

Section Shapes.

Context {W : Type} (host : Host W).

Variables (input_path : str) (total max_seconds : Z) (root : str).
Variables (overwrite dry_run : bool).

Abbreviation part_dir i := (part_dir_of host root i).
Abbreviation out_file i := (out_file_of host root i).
Abbreviation info_path i := (info_path_of host root i).
Abbreviation info i := (info_of host input_path total max_seconds i).
Abbreviation cmd_of i :=
  (ffmpeg_cmd input_path (out_file_of host root i)
     (part_start max_seconds i) (part_duration total max_seconds i)).

(** What precedes the conversion of part [i]: its directory is made, and
    the output is absent, or present and removed because overwriting was
    asked for. *)
Inductive lead_in (i : Z) : list event -> Prop :=
| lead_absent :
    lead_in i [EvMakeDirs (part_dir i) None; EvExists (out_file i) false]
| lead_replaced (err : option exn) :
    overwrite = true ->
    lead_in i [EvMakeDirs (part_dir i) None; EvExists (out_file i) true;
               EvRemove (out_file i) err].

(** The runs of one turn of the loop: the outcome, the world it leaves and
    the events, in order. *)
Inductive part_run (i : Z) (created : list str)
  : outcome (list str) -> W -> list event -> Prop :=
| run_no_directory (e : exn) (w' : W) :
    part_run i created (Raised e) w' [EvMakeDirs (part_dir i) (Some e)]
| run_dry (w' : W) :
    dry_run = true ->
    part_run i created (Returned created) w'
      [EvMakeDirs (part_dir i) None;
       EvPrint (MsgDryRun (out_file i) (part_start max_seconds i)
                  (part_duration total max_seconds i))]
| run_skipped (err : option exn) (w' : W) :
    dry_run = false -> overwrite = false ->
    part_run i created
      (match err with
       | None => Returned (created ++ [out_file i])
       | Some e => Raised e
       end) w'
      [EvMakeDirs (part_dir i) None; EvExists (out_file i) true;
       EvPrint (MsgSkip (out_file i)); EvWrite (info_path i) (info i) err]
| run_not_started (pre : list event) (e : exn) (w' : W) :
    dry_run = false -> lead_in i pre ->
    part_run i created (Raised e) w'
      (pre ++ [EvPrint (MsgExec (cmd_of i)); EvRun (cmd_of i) (Raise e)])
| run_failed (pre : list event) (proc : CompletedProcess) (w0 w' : W) :
    dry_run = false -> lead_in i pre ->
    returncode proc <> 0 ->
    subprocess_run host (cmd_of i) w0 = (w', Ok proc) ->
    part_run i created (Exited 1) w'
      (pre ++ [EvPrint (MsgExec (cmd_of i)); EvRun (cmd_of i) (Ok proc);
               EvPrint (MsgFail (i + 1) (stderr proc))])
| run_converted (pre : list event) (proc : CompletedProcess)
    (err : option exn) (w' : W) :
    dry_run = false -> lead_in i pre ->
    returncode proc = 0 ->
    part_run i created
      (match err with
       | None => Returned (created ++ [out_file i])
       | Some e => Raised e
       end) w'
      (pre ++ [EvPrint (MsgExec (cmd_of i)); EvRun (cmd_of i) (Ok proc);
               EvWrite (info_path i) (info i) err]).

(** The events of a turn that finds the output and keeps it. *)
Definition kept (i : Z) (err : option exn) : list event :=
  [EvMakeDirs (part_dir i) None; EvExists (out_file i) true;
   EvPrint (MsgSkip (out_file i)); EvWrite (info_path i) (info i) err].

(** The events between the probe and the loop. *)
Definition preamble (root : str) (total n : Z) : list event :=
  [EvMakeDirs root None; EvPrint (MsgSource input_path);
   EvPrint (MsgTotal total); EvPrint (MsgMax max_seconds);
   EvPrint (MsgNumParts n); EvPrint (MsgOutputDir root)].

(** The events of a run that stops before the loop. *)
Definition early (e : event) : Prop :=
  match e with
  | EvRun cmd _ => cmd = ffprobe_cmd input_path
  | EvMakeDirs _ _ => True
  | EvPrint (MsgSource _) => True
  | EvPrint (MsgTotal _) => True
  | _ => False
  end.

End Shapes.

(** ** Runs on the concrete host, used as examples *)

Module DemoRuns.

Import Demo.

(** 125.3 seconds in parts of 60; the second conversion fails. *)
Definition failing_run : outcome Summary * world * list event :=
  split_video host talk 60 None false false (fresh "125.3" [0; 1]).

Definition second_cmd : list str :=
  ffmpeg_cmd talk (py "/v/talk_split/part_002/part_002.mp4") 60 60.

Definition failure : CompletedProcess :=
  {| returncode := 1; stdout := []; stderr := py "conversion failed" |}.

(** The same source split twice; the second run finds every output. *)
Definition first_run : outcome Summary * world * list event :=
  split_video host talk 60 None false false (fresh "125.3" []).

Definition second_run : outcome Summary * world * list event :=
  split_video host talk 60 None false false (snd (fst first_run)).

(** A dry run on a source of 119.9 seconds, in parts of 120. *)
Definition short_dry_run : outcome Summary * world * list event :=
  split_video host talk 120 None false true (fresh "119.9" []).

(** A dry run on a source of 125 seconds, in parts of 60. *)
Definition dry_run_125 : outcome Summary * world * list event :=
  split_video host talk 60 None false true (fresh "125" []).

(** One and a half seconds of source, and a maximum length written as a
    1 followed by four hundred zeros. *)
Definition huge_max : str := py "1" ++ repeat "0"%char 400.

Definition huge_max_run : outcome Summary * world * list event :=
  split_video host talk (10 ^ 400) None false false (fresh "1.5" []).

(** The command line [--input /v/talk.mp4 --max 0]. *)
Definition zero_max : Args :=
  {| arg_input := talk; arg_max := py "0"; arg_output_dir := None;
     arg_overwrite := false; arg_dry_run := false |}.

(** The source split a second time, with overwriting. *)
Definition overwrite_run : outcome Summary * world * list event :=
  split_video host talk 60 None true false (snd (fst first_run)).

Definition second_out : str := py "/v/talk_split/part_002/part_002.mp4".

(** What the first run returns. *)
Definition first_summary : Summary :=
  {| total_seconds := 125; max_part_seconds := 60; num_parts := 3;
     output_root := py "/v/talk_split";
     outputs := [py "/v/talk_split/part_001/part_001.mp4";
                 py "/v/talk_split/part_002/part_002.mp4";
                 py "/v/talk_split/part_003/part_003.mp4"] |}.

(** [split_video] called directly with a negative maximum. *)
Definition negative_max_run : outcome Summary * world * list event :=
  split_video host talk (-60) None false false (fresh "125.3" []).

Definition negative_max_summary : Summary :=
  {| total_seconds := 125; max_part_seconds := -60; num_parts := -2;
     output_root := py "/v/talk_split"; outputs := [] |}.

(** The command line [--input /v/talk.mp4 --max 1m --dry-run]. *)
Definition one_minute_dry : Args :=
  {| arg_input := talk; arg_max := py "1m"; arg_output_dir := None;
     arg_overwrite := false; arg_dry_run := true |}.

Definition one_minute_dry_run : outcome unit * world * list event :=
  main host one_minute_dry (fresh "125.3" []).

(** The command line [--input /v/talk.mp4 --max 60], where the second
    conversion fails. *)
Definition sixty : Args :=
  {| arg_input := talk; arg_max := py "60"; arg_output_dir := None;
     arg_overwrite := false; arg_dry_run := false |}.

Definition failing_main_run : outcome unit * world * list event :=
  main host sixty (fresh "125.3" [0; 1]).

(** The same command line on a source for which [ffprobe] prints [N/A]. *)
Definition no_duration : world := fresh "N/A" [].

Definition no_duration_answer : CompletedProcess :=
  {| returncode := 0; stdout := py "N/A" ++ [ascii_of_nat 10];
     stderr := [] |}.

(** The maximum that [--max 99...9h] asks for, with 4300 nines: 4304
    digits. *)
Definition overlong_max : Z := (10 ^ 4300 - 1) * 3600.

End DemoRuns.

(** ** Tactics *)

(** Membership of an event in a literal trace. *)
Ltac in_events :=
  cbn [In app] in *;
  repeat match goal with
         | H : _ \/ _ |- _ => destruct H
         | H : False |- _ => destruct H
         | H : @eq event _ _ |- _ =>
             first [discriminate H|injection H; clear H; intros; subst]
         end.

(** Case analysis on the next answer of the host. *)
Ltac host_call :=
  match goal with
  | |- context [makedirs ?h ?p ?w] =>
      destruct (makedirs h p w) as [? [?|]] eqn:?
  | |- context [path_exists ?h ?p ?w] =>
      destruct (path_exists h p w) eqn:?
  | |- context [remove ?h ?p ?w] =>
      destruct (remove h p w) as [? ?] eqn:?
  | |- context [subprocess_run ?h ?c ?w] =>
      destruct (subprocess_run h c w) as [? [?|?]] eqn:?
  | |- context [write_json ?h ?p ?j ?w] =>
      destruct (write_json h p j w) as [? [?|]] eqn:?
  | |- context [returncode ?p =? 0] =>
      destruct (Z.eqb_spec (returncode p) 0)
  end; cbv beta iota zeta; cbn [app negb].

(** An event found in a literal trace. *)
Ltac find_event := repeat first [left; reflexivity|right].

(** * Properties *)

(** ** Characters and strings *)


Lemma isdecimal_code (c : ascii) :
  isdecimal c = true <-> 48 <= code c <= 57.
Proof. unfold isdecimal, between. lia. Qed.

Lemma isdecimal_isdigit (c : ascii) : isdecimal c = true -> isdigit c = true.
Proof. unfold isdecimal, isdigit. intros ->. reflexivity. Qed.

Lemma isdecimal_not_int_space (c : ascii) :
  isdecimal c = true -> int_space c = false.
Proof. unfold isdecimal, int_space, between. lia. Qed.

Lemma isdigit_not_sign (c : ascii) :
  isdigit c = true -> Ascii.eqb c "-" = false /\ Ascii.eqb c "+" = false.
Proof.
  intros H. split; destruct (Ascii.eqb_spec c "-"), (Ascii.eqb_spec c "+");
    subst; try reflexivity; discriminate H.
Qed.

Lemma lower_char_keeps (c x : ascii) :
  code x < 97 -> lower_char c = x -> c = x.
Proof.
  unfold lower_char. intros Hx.
  destruct (between 65 90 (code c) || between 192 222 (code c) && negb (code c =? 215)) eqn:E;
    [|intros; assumption].
  intros <-. exfalso. unfold code, between in *.
  pose proof (N_ascii_bounded c) as Hc.
  rewrite N_ascii_embedding in Hx.
  - rewrite Z2N.id in Hx by lia. lia.
  - apply N2Z.inj_lt. rewrite Z2N.id by lia. lia.
Qed.

Lemma lstrip_with_incl (sp : ascii -> bool) (s : str) (x : ascii) :
  In x (lstrip_with sp s) -> In x s.
Proof.
  induction s as [|c r IH]; simpl; [tauto|].
  destruct (sp c); simpl; auto.
Qed.

Lemma strip_with_incl (sp : ascii -> bool) (s : str) (x : ascii) :
  In x (strip_with sp s) -> In x s.
Proof.
  unfold strip_with. intros H.
  apply in_rev, lstrip_with_incl, in_rev in H.
  now apply lstrip_with_incl in H.
Qed.

Lemma lstrip_with_fixed (sp : ascii -> bool) (c : ascii) (r : str) :
  sp c = false -> lstrip_with sp (c :: r) = c :: r.
Proof. simpl. now intros ->. Qed.

(** Stripping leaves alone a string no character of which is white. *)
Lemma strip_with_fixed (sp : ascii -> bool) (s : str) :
  (forall x, In x s -> sp x = false) -> strip_with sp s = s.
Proof.
  intros H. unfold strip_with.
  assert (L : forall t, (forall x, In x t -> sp x = false) ->
                        lstrip_with sp t = t).
  { intros [|c r] Ht; [reflexivity|].
    apply lstrip_with_fixed, Ht. now left. }
  rewrite (L s H), L, rev_involutive; [reflexivity|].
  intros x Hx. apply H. now apply in_rev.
Qed.

Lemma contains_false (c : ascii) (s : str) :
  contains c s = false <-> ~ In c s.
Proof.
  unfold contains. split.
  - intros H Hin. apply Bool.not_true_iff_false in H. apply H.
    apply existsb_exists. exists c. split; [assumption|apply Ascii.eqb_refl].
  - intros H. apply Bool.not_true_iff_false. intros E.
    apply existsb_exists in E as (x & Hx & Ex).
    apply Ascii.eqb_eq in Ex. now subst.
Qed.

Lemma split_incl (sep : ascii) (s p : str) (x : ascii) :
  In p (split sep s) -> In x p -> In x s.
Proof.
  revert p. induction s as [|c r IH]; simpl; intros p Hp Hx.
  - destruct Hp as [<-|[]]. destruct Hx.
  - destruct (Ascii.eqb c sep).
    + destruct Hp as [<-|Hp]; [destruct Hx|]. right. eauto.
    + destruct (split sep r) as [|q qs].
      * destruct Hp as [<-|[]]. destruct Hx as [->|[]]. now left.
      * destruct Hp as [<-|Hp].
        -- destruct Hx as [->|Hx]; [now left|]. right. apply (IH q); simpl; auto.
        -- right. apply (IH p); simpl; auto.
Qed.

Lemma lower_strip_incl (s : str) (x : ascii) :
  code x < 97 -> In x (lower (strip s)) -> In x s.
Proof.
  intros Hx H. unfold lower in H. apply in_map_iff in H as (c & E & Hc).
  apply lower_char_keeps in E; [|assumption]. subst.
  now apply strip_with_incl in Hc.
Qed.

(** ** [int()] *)

Lemma int_digits_decimal (ds : str) :
  forall acc b,
    forallb isdecimal ds = true -> ds <> [] \/ b = true ->
    int_digits acc b ds
    = Some (fold_left (fun a c => 10 * a + digit_value c) ds acc).
Proof.
  induction ds as [|c r IH]; intros acc b Hall Hne;
    cbn [int_digits fold_left].
  - destruct Hne as [Hne| ->]; [contradiction|reflexivity].
  - cbn [forallb] in Hall. apply andb_prop in Hall as [Hc Hr].
    rewrite Hc. apply IH; auto.
Qed.

Lemma int_digits_nonneg (s : str) :
  forall acc b v, int_digits acc b s = Some v -> 0 <= acc -> 0 <= v.
Proof.
  induction s as [|c r IH]; intros acc b v; cbn [int_digits].
  - destruct b; [|discriminate]. intros [= <-]. auto.
  - destruct (isdecimal c) eqn:Hc.
    + intros H Hacc. apply (IH _ _ _ H).
      apply isdecimal_code in Hc. unfold digit_value. lia.
    + destruct (Ascii.eqb c "_" && b); [|discriminate].
      intros H Hacc. apply (IH _ _ _ H Hacc).
Qed.

Lemma exceeds_limit_off (digits : nat) : exceeds_limit 0 digits = false.
Proof. reflexivity. Qed.

(** Under the default limit the threshold plays no part. *)
Lemma exceeds_limit_default (digits : nat) :
  exceeds_limit default_max_str_digits digits
  = (default_max_str_digits <? digits)%nat.
Proof.
  unfold exceeds_limit, default_max_str_digits, str_digits_check_threshold.
  change (0 <? 4300)%nat with true. cbn [andb].
  destruct (Nat.ltb_spec 640 digits), (Nat.ltb_spec 4300 digits);
    (reflexivity || lia).
Qed.

Lemma filter_isdecimal_all (ds : str) :
  forallb isdecimal ds = true -> filter isdecimal ds = ds.
Proof.
  induction ds as [|c r IH]; cbn [forallb filter]; [reflexivity|].
  intros H. apply andb_prop in H as [-> Hr]. now rewrite IH.
Qed.

(** A non-empty string of decimal digits is a literal, of its own value. *)
Lemma int_literal_decimal (ds : str) :
  ds <> [] -> forallb isdecimal ds = true ->
  int_literal ds = Some (decimal_value ds).
Proof.
  intros Hne Hall. unfold int_literal.
  rewrite strip_with_fixed.
  2:{ intros x Hx. apply isdecimal_not_int_space.
      rewrite forallb_forall in Hall. auto. }
  destruct ds as [|c r]; [contradiction|].
  assert (Hc : isdecimal c = true) by (simpl in Hall; now apply andb_prop in Hall).
  destruct (isdigit_not_sign c (isdecimal_isdigit c Hc)) as [-> ->].
  rewrite int_digits_decimal; auto.
Qed.

(** [int()] of a non-empty string of decimal digits, under any limit: the
    value of the digits, unless there are too many of them. *)
Lemma int_with_decimal (max_str_digits : nat) (ds : str) :
  ds <> [] -> forallb isdecimal ds = true ->
  int_with max_str_digits ds
  = if exceeds_limit max_str_digits (List.length ds) then Raise ValueError
    else Ok (decimal_value ds).
Proof.
  intros Hne Hall. unfold int_with.
  now rewrite (int_literal_decimal ds Hne Hall), (filter_isdecimal_all ds Hall).
Qed.

Lemma int_decimal (ds : str) :
  ds <> [] -> forallb isdecimal ds = true ->
  int ds
  = if (default_max_str_digits <? List.length ds)%nat then Raise ValueError
    else Ok (decimal_value ds).
Proof.
  intros Hne Hall. unfold int.
  now rewrite (int_with_decimal _ ds Hne Hall), exceeds_limit_default.
Qed.

(** What [int()] returns is the value of the literal. *)
Lemma int_with_literal (max_str_digits : nat) (s : str) (v : Z) :
  int_with max_str_digits s = Ok v -> int_literal s = Some v.
Proof.
  unfold int_with. destruct (int_literal s) as [u|]; [|discriminate].
  destruct (exceeds_limit _ _); [discriminate|]. now intros [= ->].
Qed.

(** [int()] raises nothing but [ValueError]. *)
Lemma int_with_raises (max_str_digits : nat) (s : str) (e : exn) :
  int_with max_str_digits s = Raise e -> e = ValueError.
Proof.
  unfold int_with. destruct (int_literal s) as [u|].
  - destruct (exceeds_limit _ _); [|discriminate]. now intros [= <-].
  - now intros [= <-].
Qed.

(** A literal without a minus sign does not denote a negative number. *)
Lemma int_nonneg (s : str) (v : Z) :
  int s = Ok v -> ~ In "-"%char s -> 0 <= v.
Proof.
  intros H Hs. apply int_with_literal in H. revert H. unfold int_literal.
  intros H.
  assert (Ht : ~ In "-"%char (strip_with int_space s))
    by (intros Hin; now apply strip_with_incl in Hin).
  destruct (strip_with int_space s) as [|c r]; [discriminate|].
  destruct (Ascii.eqb_spec c "-") as [->|_].
  { exfalso. apply Ht. now left. }
  destruct (Ascii.eqb c "+"); apply (int_digits_nonneg _ _ _ _ H); lia.
Qed.

Lemma isdigit_no_minus (s : str) :
  forallb isdigit s = true -> ~ In "-"%char s.
Proof.
  intros H Hin. rewrite forallb_forall in H. apply H in Hin. discriminate.
Qed.

Lemma digits_of_isdigit (s : str) : forallb isdigit (digits_of s) = true.
Proof.
  apply forallb_forall. intros x Hx. now apply filter_In in Hx.
Qed.

Lemma digits_of_app (a b : str) :
  digits_of (a ++ b) = digits_of a ++ digits_of b.
Proof. apply filter_app. Qed.

Lemma digits_of_decimal (ds : str) :
  forallb isdecimal ds = true -> digits_of ds = ds.
Proof.
  induction ds as [|c r IH]; simpl; [reflexivity|].
  intros H. apply andb_prop in H as [Hc Hr].
  rewrite (isdecimal_isdigit c Hc), IH; auto.
Qed.

Lemma decimal_no_colon (ds suffix : str) :
  forallb isdecimal ds = true -> contains ":" suffix = false ->
  contains ":" (ds ++ suffix) = false.
Proof.
  intros Hall Hsuf. unfold contains in *. rewrite existsb_app, Hsuf, orb_false_r.
  apply Bool.not_true_iff_false. intros E.
  apply existsb_exists in E as (x & Hx & Ex). apply Ascii.eqb_eq in Ex. subst.
  rewrite forallb_forall in Hall. apply Hall in Hx. discriminate.
Qed.

(** ** The duration parser *)

(** C9.  The five worked inputs: ["01:30:00"] gives 5400, ["30m"] gives
    1800, ["2h"] gives 7200, ["5400"] gives 5400 and ["90s"] gives 90. *)
Theorem parse_duration_worked_inputs :
  parse_duration_to_seconds (py "01:30:00") = Ok 5400 /\
  parse_duration_to_seconds (py "30m") = Ok 1800 /\
  parse_duration_to_seconds (py "2h") = Ok 7200 /\
  parse_duration_to_seconds (py "5400") = Ok 5400 /\
  parse_duration_to_seconds (py "90s") = Ok 90.
Proof. repeat split; reflexivity. Qed.

(** C10.  The seconds suffix is tested first: an input without a colon
    whose normalised form ends in [s] is read as a count of seconds, the
    digits it contains and nothing else; so ["2 hours"] and ["2 hrs"] both
    give 2. *)
Theorem seconds_suffix_takes_precedence (s : str) :
  contains ":" (lower (strip s)) = false ->
  endswith (py "s") (lower (strip s)) = true ->
  parse_duration_to_seconds s = int (digits_of (lower (strip s))) /\
  parse_duration_to_seconds (py "2 hours") = Ok 2 /\
  parse_duration_to_seconds (py "2 hrs") = Ok 2.
Proof.
  intros Hcolon Hs. split; [|split; reflexivity].
  unfold parse_duration_to_seconds. cbv zeta. now rewrite Hcolon, Hs.
Qed.

Lemma seconds_suffix_takes_precedence_witness :
  contains ":" (lower (strip (py " 1h 30 Mins "))) = false /\
  endswith (py "s") (lower (strip (py " 1h 30 Mins "))) = true /\
  parse_duration_to_seconds (py " 1h 30 Mins ") = Ok 130.
Proof.
  split; [reflexivity|]. split; [reflexivity|].
  rewrite (proj1 (seconds_suffix_takes_precedence (py " 1h 30 Mins ")
                    eq_refl eq_refl)).
  reflexivity.
Defined.

(** The suffix branches on a normalised input made of decimal digits and
    one of the suffixes the code tests for. *)
Lemma parse_suffixed (s ds suffix : str) (k : Z) :
  ds <> [] -> forallb isdecimal ds = true ->
  lower (strip s) = ds ++ suffix ->
  contains ":" suffix = false ->
  digits_of suffix = [] ->
  (let n := ds ++ suffix in
   if endswith (py "s") n || endswith (py " sec") n then k = 1
   else if endswith (py "m") n || endswith (py " min") n then k = 60
   else if endswith (py "h") n || endswith (py " hr") n
           || endswith (py " hour") n then k = 3600
   else False) ->
  parse_duration_to_seconds s
  = if (default_max_str_digits <? List.length ds)%nat then Raise ValueError
    else Ok (decimal_value ds * k).
Proof.
  intros Hne Hall Hs Hcolon Hdig Hk. cbv zeta in Hk.
  unfold parse_duration_to_seconds. cbv zeta. rewrite Hs.
  rewrite (decimal_no_colon ds suffix Hall Hcolon).
  rewrite digits_of_app, Hdig, app_nil_r, (digits_of_decimal ds Hall).
  rewrite (int_decimal ds Hne Hall).
  destruct (endswith (py "s") (ds ++ suffix) || endswith (py " sec") (ds ++ suffix)).
  { subst k. rewrite Z.mul_1_r.
    now destruct (default_max_str_digits <? List.length ds)%nat. }
  destruct (endswith (py "m") (ds ++ suffix) || endswith (py " min") (ds ++ suffix)).
  { subst k. now destruct (default_max_str_digits <? List.length ds)%nat. }
  destruct (endswith (py "h") (ds ++ suffix) || endswith (py " hr") (ds ++ suffix)
            || endswith (py " hour") (ds ++ suffix)).
  { subst k. now destruct (default_max_str_digits <? List.length ds)%nat. }
  contradiction.
Qed.

Lemma endswith_app (suffix ds : str) (x : str) :
  endswith x (ds ++ suffix) = startswith (rev x) (rev suffix ++ rev ds).
Proof. unfold endswith. now rewrite rev_app_distr. Qed.

(** Decimal digits followed by a suffix in lower case without white space
    are their own normal form. *)
Lemma isdecimal_normal (c : ascii) :
  isdecimal c = true -> isspace c = false /\ lower_char c = c.
Proof.
  destruct c as [[] [] [] [] [] [] [] []]; intros H;
    first [discriminate H|split; reflexivity].
Qed.

Lemma normal_decimal_suffix (ds suffix : str) :
  forallb isdecimal ds = true ->
  (forall x, In x suffix -> isspace x = false /\ lower_char x = x) ->
  lower (strip (ds ++ suffix)) = ds ++ suffix.
Proof.
  intros Hall Hsuf.
  assert (H : forall x, In x (ds ++ suffix) ->
                        isspace x = false /\ lower_char x = x).
  { intros x Hx. apply in_app_or in Hx as [Hx|Hx]; [|now apply Hsuf].
    apply isdecimal_normal. rewrite forallb_forall in Hall. auto. }
  unfold strip. rewrite strip_with_fixed by (intros x Hx; now apply H).
  unfold lower. rewrite <- (map_id (ds ++ suffix)) at 2.
  apply map_ext_in. intros x Hx. now apply H.
Qed.

Lemma forallb_repeat (f : ascii -> bool) (c : ascii) (n : nat) :
  f c = true -> forallb f (repeat c n) = true.
Proof.
  intros H. induction n as [|n IH]; [reflexivity|].
  cbn [repeat forallb]. now rewrite H, IH.
Qed.

(** Any number of the same digit, followed by [m]: too many digits are
    refused, the others are read as minutes. *)
Lemma parse_repeated_minutes (c : ascii) (n : nat) :
  isdecimal c = true ->
  parse_duration_to_seconds (repeat c (S n) ++ py "m")
  = if (default_max_str_digits <? S n)%nat then Raise ValueError
    else Ok (decimal_value (repeat c (S n)) * 60).
Proof.
  intros Hc.
  replace (default_max_str_digits <? S n)%nat
    with (default_max_str_digits <? List.length (repeat c (S n)))%nat
    by now rewrite repeat_length.
  apply parse_suffixed with (suffix := py "m").
  - discriminate.
  - now apply forallb_repeat.
  - apply normal_decimal_suffix; [now apply forallb_repeat|].
    intros x [<-|[]]. split; reflexivity.
  - reflexivity.
  - reflexivity.
  - cbv zeta. rewrite !endswith_app. reflexivity.
Qed.

(** C6, as the code has it.  After stripping and lower-casing, decimal
    digits followed by [m] or by [ min] (with the blank) give the digits
    times 60, and digits followed by [h], [ hr] or [ hour] (with the blank)
    give the digits times 3600, as long as there are no more digits than
    [int()] accepts; with more than 4300 digits the parser raises
    [ValueError]. *)
Theorem minutes_and_hours_suffixes (s ds : str) :
  ds <> [] -> forallb isdecimal ds = true ->
  (lower (strip s) = ds ++ py "m" \/ lower (strip s) = ds ++ py " min" ->
   parse_duration_to_seconds s
   = if (default_max_str_digits <? List.length ds)%nat then Raise ValueError
     else Ok (decimal_value ds * 60)) /\
  (lower (strip s) = ds ++ py "h" \/ lower (strip s) = ds ++ py " hr"
   \/ lower (strip s) = ds ++ py " hour" ->
   parse_duration_to_seconds s
   = if (default_max_str_digits <? List.length ds)%nat then Raise ValueError
     else Ok (decimal_value ds * 3600)).
Proof.
  intros Hne Hall.
  split; intros H; repeat destruct H as [H|H];
    (eapply parse_suffixed; [exact Hne|exact Hall|exact H|reflexivity|reflexivity|]);
    cbv zeta; rewrite !endswith_app; reflexivity.
Qed.

Lemma minutes_and_hours_suffixes_witness :
  py "30" <> [] /\ forallb isdecimal (py "30") = true /\
  parse_duration_to_seconds (py " 30 MIN ") = Ok 1800.
Proof.
  split; [discriminate|]. split; [reflexivity|].
  apply (proj1 (minutes_and_hours_suffixes (py " 30 MIN ") (py "30")
                  ltac:(discriminate) eq_refl)).
  right. reflexivity.
Defined.

(** C6 as stated fails, in two ways.  Without the blank, ["30min"] and
    ["2hr"] are rejected, while ["30 min"] and ["2 hr"] are read.  And the
    digits are not any digits: 4301 of them followed by [m] are rejected,
    where the claim has their value times 60, while 4300 of them are
    read. *)
Lemma glued_unit_words_rejected :
  ~ (parse_duration_to_seconds (py "30min") = Ok 1800 /\
     parse_duration_to_seconds (py "2hr") = Ok 7200) /\
  parse_duration_to_seconds (py "30min") = Raise ValueError /\
  parse_duration_to_seconds (py "2hr") = Raise ValueError /\
  parse_duration_to_seconds (py "30 min") = Ok 1800 /\
  parse_duration_to_seconds (py "2 hr") = Ok 7200 /\
  parse_duration_to_seconds (repeat "1"%char 4301 ++ py "m")
  = Raise ValueError /\
  parse_duration_to_seconds (repeat "1"%char 4301 ++ py "m")
  <> Ok (decimal_value (repeat "1"%char 4301) * 60) /\
  parse_duration_to_seconds (repeat "1"%char 4300 ++ py "m")
  = Ok (decimal_value (repeat "1"%char 4300) * 60).
Proof.
  split; [intros [H _]; discriminate H|].
  assert (Hlong : parse_duration_to_seconds (repeat "1"%char 4301 ++ py "m")
                  = Raise ValueError)
    by exact (parse_repeated_minutes "1" 4300 eq_refl).
  split; [reflexivity|]. split; [reflexivity|]. split; [reflexivity|].
  split; [reflexivity|]. split; [exact Hlong|].
  split; [rewrite Hlong; discriminate|].
  exact (parse_repeated_minutes "1" 4299 eq_refl).
Qed.

(** C3, as the code has it.  A value the parser returns is non-negative
    whenever the input has no colon or no minus sign. *)
Theorem parse_duration_nonneg (s : str) (v : Z) :
  parse_duration_to_seconds s = Ok v ->
  contains ":" s = false \/ contains "-" s = false ->
  0 <= v.
Proof.
  unfold parse_duration_to_seconds. cbv zeta. intros H Hs.
  set (n := lower (strip s)) in *.
  assert (Hdig : forall t w, forallb isdigit t = true -> int t = Ok w -> 0 <= w).
  { intros t w Ht Hw. apply (int_nonneg t w Hw). now apply isdigit_no_minus. }
  destruct (contains ":" n) eqn:Hcolon.
  - destruct Hs as [Hs|Hs].
    { exfalso. apply contains_false in Hs. apply Hs.
      apply lower_strip_incl; [reflexivity|].
      apply Bool.not_false_iff_true in Hcolon.
      destruct (in_dec ascii_dec ":"%char n) as [Hin|Hout]; [assumption|].
      exfalso. apply Hcolon. now apply contains_false. }
    assert (Hn : ~ In "-"%char n).
    { intros Hin. apply contains_false in Hs. apply Hs.
      now apply lower_strip_incl. }
    pose proof (fun p => split_incl ":" n p "-") as Hparts.
    destruct (split ":" n) as [|h [|m [|sec [|]]]]; try discriminate.
    unfold rbind in H.
    destruct (int h) as [vh|] eqn:Eh; [|discriminate].
    destruct (int m) as [vm|] eqn:Em; [|discriminate].
    destruct (int sec) as [vs|] eqn:Es; [|discriminate].
    injection H as <-.
    apply int_nonneg in Eh, Em, Es; try lia;
      intros Hin; apply Hn; (eapply Hparts; [|exact Hin]); simpl; auto.
  - pose proof (digits_of_isdigit n) as Hd.
    destruct (endswith (py "s") n || endswith (py " sec") n); [eauto|].
    destruct (endswith (py "m") n || endswith (py " min") n).
    { destruct (int (digits_of n)) as [w|] eqn:E; [|discriminate].
      injection H as <-. specialize (Hdig _ _ Hd E). lia. }
    destruct (endswith (py "h") n || endswith (py " hr") n
              || endswith (py " hour") n).
    { destruct (int (digits_of n)) as [w|] eqn:E; [|discriminate].
      injection H as <-. specialize (Hdig _ _ Hd E). lia. }
    destruct (str_isdigit n) eqn:En; [|discriminate].
    apply (Hdig n v); [|assumption].
    unfold str_isdigit in En. destruct n; [discriminate|assumption].
Qed.

Lemma parse_duration_nonneg_witness :
  parse_duration_to_seconds (py "-90 sec") = Ok 90 /\
  (contains ":" (py "-90 sec") = false \/ contains "-" (py "-90 sec") = false) /\
  0 <= 90.
Proof.
  split; [reflexivity|]. split; [left; reflexivity|].
  apply (parse_duration_nonneg (py "-90 sec") 90); [reflexivity|].
  left. reflexivity.
Defined.

(** C3 as stated fails: a colon-separated input with a signed component is
    accepted and yields a negative number of seconds. *)
Lemma signed_component_accepted :
  parse_duration_to_seconds (py "-1:00:00") = Ok (- 3600) /\
  ~ (forall s v, parse_duration_to_seconds s = Ok v -> 0 <= v).
Proof.
  split; [reflexivity|].
  intros H. specialize (H (py "-1:00:00") (- 3600) eq_refl). lia.
Qed.

(** ** The arithmetic of the planner *)


Lemma ceil_div_spec (a b : Z) :
  0 < b -> b * (ceil_div a b - 1) < a <= b * ceil_div a b.
Proof.
  intros Hb. unfold ceil_div.
  pose proof (Z.div_mod (a + b - 1) b ltac:(lia)) as E.
  pose proof (Z.mod_pos_bound (a + b - 1) b Hb). lia.
Qed.

Lemma ceil_div_unique (a b c : Z) :
  0 < b -> b * (c - 1) < a <= b * c -> ceil_div a b = c.
Proof.
  intros Hb Hc. pose proof (ceil_div_spec a b Hb). nia.
Qed.

Section Rounding.

Variables a b P : Z.
Hypothesis a_pos : 0 < a.
Hypothesis b_pos : 0 < b.
Hypothesis P_pos : 0 < P.
Hypothesis b_small : b < 2 * P.

(** Rounding [a * P / b] to the nearest integer stays strictly above the
    multiples of [P] below [a / b], and does not pass the next one. *)
Lemma round_half_even_bracket :
  (ceil_div a b - 1) * P < round_half_even (a * P) b <= ceil_div a b * P.
Proof.
  pose proof (ceil_div_spec a b b_pos) as [Hlo Hhi].
  set (c := ceil_div a b) in *.
  unfold round_half_even.
  pose proof (Z.div_mod (a * P) b ltac:(lia)) as E.
  pose proof (Z.mod_pos_bound (a * P) b b_pos) as Hr.
  set (q := a * P / b) in *. set (r := (a * P) mod b) in *.
  assert (Hq1 : q <= c * P) by nia.
  assert (Hq2 : 0 < r -> q < c * P) by nia.
  assert (Hq3 : (c - 1) * P <= q) by nia.
  assert (Hq4 : q = (c - 1) * P -> P <= r).
  { intros Hq. assert (r = (a - b * (c - 1)) * P) by nia. nia. }
  destruct (2 * r <? b) eqn:E1; [apply Z.ltb_lt in E1|apply Z.ltb_ge in E1].
  { split; [|assumption].
    destruct (Z.eq_dec q ((c - 1) * P)) as [Hq|Hq]; [|lia].
    specialize (Hq4 Hq). lia. }
  assert (0 < r) by lia.
  destruct (b <? 2 * r) eqn:E2; [lia|apply Z.ltb_ge in E2].
  destruct (Z.even q); [|lia].
  split; [|lia].
  destruct (Z.eq_dec q ((c - 1) * P)) as [Hq|Hq]; [|lia].
  specialize (Hq4 Hq). lia.
Qed.

Lemma ceil_of_rounded :
  - (- round_half_even (a * P) b / P) = ceil_div a b.
Proof.
  pose proof round_half_even_bracket as [Hlo Hhi].
  set (m := round_half_even (a * P) b) in *.
  set (c := ceil_div a b) in *.
  assert (E : - m / P = - c); [|lia].
  symmetry. apply (Z.div_unique (- m) P (- c) (c * P - m)); lia.
Qed.

End Rounding.

Lemma pow2_pos (n : Z) : 0 <= n -> 0 < 2 ^ n.
Proof. intros. apply Z.pow_pos_nonneg; lia. Qed.

(** The exponent [quotient_exponent a b] is below [log2 (a / b)]. *)
Lemma quotient_exponent_le (a b : Z) :
  quotient_exponent a b <= Z.log2 a - Z.log2 b.
Proof.
  unfold quotient_exponent.
  destruct (if 0 <=? _ then _ else _); lia.
Qed.

Lemma quotient_exponent_lower (a b : Z) :
  0 < a -> 0 < b ->
  let E := quotient_exponent a b in
  (0 <= E -> b * 2 ^ E <= a) /\ (E < 0 -> b <= a * 2 ^ (- E)).
Proof.
  intros Ha Hb. cbv zeta. unfold quotient_exponent.
  pose proof (Z.log2_spec a Ha) as [Ha1 Ha2].
  pose proof (Z.log2_spec b Hb) as [Hb1 Hb2].
  pose proof (Z.log2_nonneg a) as Hla. pose proof (Z.log2_nonneg b) as Hlb.
  set (la := Z.log2 a) in *. set (lb := Z.log2 b) in *.
  replace (Z.succ la) with (la + 1) in Ha2 by lia.
  replace (Z.succ lb) with (lb + 1) in Hb2 by lia.
  rewrite Z.pow_add_r in Ha2, Hb2 by lia. change (2 ^ 1) with 2 in *.
  pose proof (pow2_pos la Hla). pose proof (pow2_pos lb Hlb).
  destruct (0 <=? la - lb) eqn:Hd;
    [apply Z.leb_le in Hd|apply Z.leb_gt in Hd].
  - destruct (b * 2 ^ (la - lb) <=? a) eqn:T;
      [apply Z.leb_le in T; split; [auto|lia]|].
    assert (Ela : 2 ^ la = 2 ^ lb * 2 ^ (la - lb))
      by (rewrite <- Z.pow_add_r by lia; f_equal; lia).
    split; intros HE.
    + assert (E2 : 2 ^ (la - lb) = 2 * 2 ^ (la - lb - 1)).
      { replace (la - lb) with (1 + (la - lb - 1)) at 1 by lia.
        now rewrite Z.pow_add_r by lia. }
      pose proof (pow2_pos (la - lb - 1) HE). nia.
    + assert (la - lb = 0) by lia.
      replace (- (la - lb - 1)) with 1 by lia. change (2 ^ 1) with 2.
      replace lb with la in * by lia. lia.
  - assert (Elb : 2 ^ lb = 2 ^ la * 2 ^ (- (la - lb)))
      by (rewrite <- Z.pow_add_r by lia; f_equal; lia).
    pose proof (pow2_pos (- (la - lb)) ltac:(lia)).
    destruct (b <=? a * 2 ^ (- (la - lb))) eqn:T;
      [apply Z.leb_le in T; split; [lia|auto]|].
    split; [lia|intros _].
    replace (- (la - lb - 1)) with (- (la - lb) + 1) by lia.
    rewrite Z.pow_add_r by lia. change (2 ^ 1) with 2. nia.
Qed.

(** Below [2^53] seconds of source and [2^1075] seconds of part length the
    count of parts is the exact ceiling of the quotient. *)
Lemma num_parts_exact (total max_seconds : Z) :
  0 <= total < 2 ^ 53 -> 0 < max_seconds < 2 ^ 1075 ->
  num_parts_of total max_seconds = Ok (ceil_div total max_seconds).
Proof.
  intros [Ht0 Ht] [Hm0 Hm]. unfold num_parts_of, true_divide.
  destruct (Z.eqb_spec max_seconds 0) as [|_]; [lia|].
  destruct (Z.eqb_spec total 0) as [->|Hne].
  { cbn [rbind math_ceil]. change (0 <=? 0) with true. cbv iota.
    rewrite Z.mul_0_l. f_equal. symmetry. apply ceil_div_unique; lia. }
  assert (Ha : 0 < total) by lia.
  rewrite (Z.abs_eq total), (Z.abs_eq max_seconds) by lia.
  rewrite (Z.sgn_pos total), (Z.sgn_pos max_seconds) by lia.
  unfold round_quotient.
  pose proof (quotient_exponent_le total max_seconds) as HE.
  pose proof (quotient_exponent_lower total max_seconds Ha Hm0) as [HE1 HE2].
  set (E := quotient_exponent total max_seconds) in *.
  assert (Hlog : Z.log2 total < 53) by (apply Z.log2_lt_pow2; lia).
  pose proof (Z.log2_nonneg max_seconds).
  set (e := Z.max (E - 52) (- 1074)).
  assert (He : - 1074 <= e <= 0) by lia.
  set (P := 2 ^ (- e)).
  assert (HP : 0 < P) by (apply pow2_pos; lia).
  assert (Hsmall : max_seconds < 2 * P).
  { unfold P. change 2 with (2 ^ 1) at 1. rewrite <- Z.pow_add_r by lia.
    destruct (Z.max_spec (E - 52) (- 1074)) as [[_ Hmax]|[_ Hmax]];
      fold e in Hmax; rewrite Hmax.
    - exact Hm.
    - replace (1 + - (E - 52)) with (53 - E) by lia.
      destruct (Z_le_gt_dec 0 E) as [HEpos|HEneg].
      + specialize (HE1 HEpos).
        assert (E53 : 2 ^ 53 = 2 ^ (53 - E) * 2 ^ E)
          by (rewrite <- Z.pow_add_r by lia; f_equal; lia).
        pose proof (pow2_pos E HEpos). pose proof (pow2_pos (53 - E) ltac:(lia)).
        nia.
      + specialize (HE2 ltac:(lia)).
        assert (E53 : 2 ^ (53 - E) = 2 ^ 53 * 2 ^ (- E))
          by (rewrite <- Z.pow_add_r by lia; f_equal; lia).
        pose proof (pow2_pos (- E) ltac:(lia)). nia. }
  assert (P1 : e = 0 -> P = 1) by (unfold P; now intros ->).
  set (m := if 0 <=? e then round_half_even total (max_seconds * 2 ^ e)
            else round_half_even (total * P) max_seconds).
  assert (Em : m = round_half_even (total * P) max_seconds).
  { unfold m. destruct (Z.leb_spec 0 e); [|reflexivity].
    assert (He0 : e = 0) by lia. rewrite (P1 He0), He0.
    change (2 ^ 0) with 1. now rewrite !Z.mul_1_r. }
  assert (Hbr : (ceil_div total max_seconds - 1) * P
                < round_half_even (total * P) max_seconds
                <= ceil_div total max_seconds * P)
    by (apply round_half_even_bracket; assumption).
  destruct Hbr as [Hlo Hhi]. rewrite <- Em in Hlo, Hhi.
  pose proof (ceil_div_spec total max_seconds Hm0) as [Hc1 Hc2].
  assert (Hc : ceil_div total max_seconds <= total) by nia.
  assert (Hover : overflows m e = false).
  { unfold overflows.
    assert (2 ^ 53 < 2 ^ 1024) by (apply Z.pow_lt_mono_r; lia).
    destruct (Z.leb_spec 0 e) as [Hsign|Hsign]; apply Z.leb_gt.
    - assert (He0 : e = 0) by lia. specialize (P1 He0).
      rewrite He0. change (2 ^ 0) with 1. nia.
    - fold P. nia. }
  cbv beta iota. rewrite Hover. cbn [rbind math_ceil]. f_equal.
  rewrite !Z.mul_1_l.
  destruct (Z.leb_spec 0 e) as [Hsign|Hsign].
  - assert (He0 : e = 0) by lia. specialize (P1 He0).
    rewrite He0. change (2 ^ 0) with 1. rewrite Z.mul_1_r.
    rewrite P1 in *. lia.
  - fold P. rewrite Em. apply ceil_of_rounded; assumption.
Qed.

(** ** The plan *)


Lemma py_range_length (n : Z) : 0 <= n -> Z.of_nat (List.length (py_range n)) = n.
Proof.
  intros Hn. unfold py_range. rewrite length_map, length_seq. lia.
Qed.

Lemma py_range_nth (n i : Z) :
  0 <= i < n -> nth_error (py_range n) (Z.to_nat i) = Some i.
Proof.
  intros Hi. unfold py_range.
  rewrite nth_error_map, nth_error_seq.
  destruct (Nat.ltb_spec (Z.to_nat i) (Z.to_nat n)); [|lia].
  cbn. f_equal. lia.
Qed.

Lemma py_range_In (n i : Z) : In i (py_range n) <-> 0 <= i < n.
Proof.
  unfold py_range. rewrite in_map_iff. split.
  - intros (k & <- & Hk). apply in_seq in Hk. lia.
  - intros Hi. exists (Z.to_nat i). split; [lia|]. apply in_seq. lia.
Qed.

Section Partition.

Variables total max_seconds : Z.
Hypothesis total_range : 0 <= total < 2 ^ 53.
Hypothesis max_range : 0 < max_seconds < 2 ^ 1075.

Abbreviation n := (ceil_div total max_seconds).

Lemma parts_count_nonneg : 0 <= n.
Proof.
  pose proof (ceil_div_spec total max_seconds ltac:(lia)). nia.
Qed.

Lemma parts_count_zero : total = 0 -> n = 0.
Proof.
  intros ->. apply ceil_div_unique; lia.
Qed.

(** Every part of the plan is the window [min(max, total - start)] long,
    which is not empty. *)
Lemma part_duration_min (i : Z) :
  0 <= i < n ->
  part_duration total max_seconds i
  = Z.min max_seconds (total - i * max_seconds)
  /\ 0 < part_duration total max_seconds i.
Proof.
  intros Hi. pose proof (ceil_div_spec total max_seconds ltac:(lia)) as Hc.
  unfold part_duration, part_start.
  destruct (Z.gtb_spec (total - i * max_seconds) max_seconds); split; nia.
Qed.

(** A part that is not the last one ends where the next one starts. *)
Lemma part_contiguous (i : Z) :
  0 <= i -> i + 1 < n ->
  part_start max_seconds i + part_duration total max_seconds i
  = part_start max_seconds (i + 1).
Proof.
  intros Hi Hn. pose proof (ceil_div_spec total max_seconds ltac:(lia)) as Hc.
  unfold part_duration, part_start.
  destruct (Z.gtb_spec (total - i * max_seconds) max_seconds); nia.
Qed.

(** The last part ends with the source. *)
Lemma part_last (i : Z) :
  i + 1 = n ->
  part_start max_seconds i + part_duration total max_seconds i = total.
Proof.
  intros Hi. pose proof (ceil_div_spec total max_seconds ltac:(lia)) as Hc.
  unfold part_duration, part_start.
  destruct (Z.gtb_spec (total - i * max_seconds) max_seconds); nia.
Qed.

(** X1.  Within the range of binary64 the plan is the partition of
    [[0, total)] into [ceil (total / max)] windows: contiguous 1-based
    indices, the first part starting at 0, each part non-empty and
    [min (max, total - start)] long, each part ending where the next one
    starts, and the last one ending at [total]. *)
Theorem plan_is_partition :
  exists plan,
    plan_of total max_seconds = Ok plan /\
    Z.of_nat (List.length plan) = n /\
    (total = 0 -> plan = []) /\
    forall i, 0 <= i < n ->
      nth_error plan (Z.to_nat i)
      = Some (i + 1, i * max_seconds,
              Z.min max_seconds (total - i * max_seconds),
              if i + 1 <? n then (i + 1) * max_seconds else total)
      /\ 0 < Z.min max_seconds (total - i * max_seconds).
Proof.
  pose proof parts_count_nonneg as Hn.
  exists (map (descriptor total max_seconds) (py_range n)).
  split; [|split; [|split]].
  - unfold plan_of. rewrite num_parts_exact by assumption. reflexivity.
  - rewrite length_map. now apply py_range_length.
  - intros H0. now rewrite (parts_count_zero H0).
  - intros i Hi. destruct (part_duration_min i Hi) as [Hd Hpos].
    rewrite nth_error_map, (py_range_nth n i Hi). cbn [option_map].
    unfold descriptor. rewrite <- Hd. split; [|assumption].
    do 2 f_equal. destruct (Z.ltb_spec (i + 1) n).
    + rewrite part_contiguous by lia. reflexivity.
    + apply part_last. lia.
Qed.

End Partition.

(** The planning example: 125 seconds in parts of at most 60. *)
Lemma plan_125_60 :
  plan_of 125 60 = Ok [(1, 0, 60, 60); (2, 60, 60, 120); (3, 120, 5, 125)].
Proof. vm_compute. reflexivity. Qed.

(** C1, at an input where the code departs from it.  For a second and a
    half of source and a maximum length of [10^400] seconds, which the
    parser accepts, the quotient [1 / 10^400] underflows to [0.0]: the
    count of parts is 0, the plan is empty and the run returns a summary
    without any part, where the ceiling of the quotient is 1 and the part
    [(1, 0, 1, 1)] is due. *)
Theorem plan_empty_for_huge_max :
  parse_duration_to_seconds DemoRuns.huge_max = Ok (10 ^ 400) /\
  true_divide 1 (10 ^ 400) = Ok (Finite 0 (- 1074)) /\
  num_parts_of 1 (10 ^ 400) = Ok 0 /\
  plan_of 1 (10 ^ 400) = Ok [] /\
  ceil_div 1 (10 ^ 400) = 1 /\
  descriptor 1 (10 ^ 400) 0 = (1, 0, 1, 1) /\
  fst (fst DemoRuns.huge_max_run)
  = Returned {| total_seconds := 1; max_part_seconds := 10 ^ 400;
                num_parts := 0; output_root := py "/v/talk_split";
                outputs := [] |}.
Proof. vm_compute. repeat split; reflexivity. Qed.

(** ** Runs of the program *)

Lemma lift_returned {W A : Type} (r : result A) (w w' : W) (a : A)
    (t : list event) :
  lift r w = (Returned a, w', t) -> r = Ok a /\ w' = w /\ t = [].
Proof.
  destruct r; cbn; intros [= <- <- <-]; auto.
Qed.


Section Runs.

Context {W : Type} (host : Host W).

Variables (input_path : str) (total max_seconds : Z) (root : str).
Variables (overwrite dry_run : bool).

Abbreviation part_dir i := (part_dir_of host root i).
Abbreviation out_file i := (out_file_of host root i).
Abbreviation info_path i := (info_path_of host root i).
Abbreviation info i := (info_of host input_path total max_seconds i).
Abbreviation cmd_of i :=
  (ffmpeg_cmd input_path (out_file_of host root i)
     (part_start max_seconds i) (part_duration total max_seconds i)).
Abbreviation lead i := (lead_in host root overwrite i).
Abbreviation turn i created :=
  (part_run host input_path total max_seconds root overwrite dry_run
     i created).



(** Every run of a turn of the loop is one of [part_run]. *)
Lemma split_part_run (i : Z) (created : list str) (w : W) :
  let '(r, w', t) :=
    split_part host input_path total max_seconds root overwrite dry_run
      i created w in
  turn i created r w' t.
Proof.
  unfold split_part, bind, ensure_dir, print, os_path_exists, try_remove,
    dump_info, run, answer, ret, sys_exit.
  cbv beta iota zeta.
  host_call; [apply run_no_directory|].
  destruct dry_run; cbv beta iota zeta; cbn [app].
  { now apply run_dry. }
  host_call.
  - destruct overwrite; cbv beta iota zeta; cbn [app].
    + host_call.
      assert (L : lead_in host root true i
                    [EvMakeDirs (part_dir i) None;
                     EvExists (out_file i) true;
                     EvRemove (out_file i) o])
        by now apply lead_replaced.
      host_call.
      * host_call.
        -- host_call.
           ++ exact (run_converted _ _ _ _ _ _ _ i created _ _ (Some e0) _ eq_refl L e).
           ++ exact (run_converted _ _ _ _ _ _ _ i created _ _ None _ eq_refl L e).
        -- exact (run_failed _ _ _ _ _ _ _ i created _ _ _ _ eq_refl L n Heqp1).
      * exact (run_not_started _ _ _ _ _ _ _ i created _ _ _ eq_refl L).
    + host_call.
      * exact (run_skipped _ _ _ _ _ _ _ i created (Some e) _ eq_refl eq_refl).
      * exact (run_skipped _ _ _ _ _ _ _ i created None _ eq_refl eq_refl).
  - assert (L : lead i [EvMakeDirs (part_dir i) None;
                            EvExists (out_file i) false])
      by apply lead_absent.
    host_call.
    + host_call.
      * host_call.
        -- exact (run_converted _ _ _ _ _ _ _ i created _ _ (Some e0) _ eq_refl L e).
        -- exact (run_converted _ _ _ _ _ _ _ i created _ _ None _ eq_refl L e).
      * exact (run_failed _ _ _ _ _ _ _ i created _ _ _ _ eq_refl L n Heqp0).
    + exact (run_not_started _ _ _ _ _ _ _ i created _ _ _ eq_refl L).
Qed.

Abbreviation loop idxs created :=
  (split_parts host input_path total max_seconds root overwrite dry_run
     idxs created).

Lemma split_part_inv (i : Z) (created : list str) (w w' : W)
    (r : outcome (list str)) (t : list event) :
  split_part host input_path total max_seconds root overwrite dry_run
    i created w = (r, w', t) ->
  turn i created r w' t.
Proof.
  intros H. pose proof (split_part_run i created w) as R.
  now rewrite H in R.
Qed.

(** One step of the loop: the turn for the first index, and then either
    the rest of the loop or the end of the run. *)
Lemma split_parts_step (i : Z) (rest : list Z) (created : list str)
    (w w' : W) (r : outcome (list str)) (t : list event) :
  loop (i :: rest) created w = (r, w', t) ->
  exists r1 w1 t1,
    turn i created r1 w1 t1 /\
    ((exists c t2, r1 = Returned c /\ loop rest c w1 = (r, w', t2)
                   /\ t = t1 ++ t2)
     \/ ((forall c, r1 <> Returned c) /\ r = r1 /\ w' = w1 /\ t = t1)).
Proof.
  cbn [split_parts]. unfold bind.
  destruct (split_part host input_path total max_seconds root overwrite
              dry_run i created w) as [[r1 w1] t1] eqn:E1.
  apply split_part_inv in E1. intros H.
  exists r1, w1, t1. split; [assumption|].
  destruct r1 as [c|e|k].
  - left. destruct (loop rest c w1) as [[r2 w2] t2] eqn:E2.
    injection H as <- <- <-. exists c, t2. auto.
  - right. injection H as <- <- <-. repeat split; congruence.
  - right. injection H as <- <- <-. repeat split; congruence.
Qed.

(** A turn that returns has handled its part: in a real run the list of
    outputs grows by the part's file and the part's record is the one
    written; no conversion in it has failed. *)
Lemma part_run_returned (i : Z) (created c : list str) (w' : W)
    (t : list event) :
  turn i created (Returned c) w' t ->
  c = (if dry_run then created else created ++ [out_file i]) /\
  (forall p j err, In (EvWrite p j err) t ->
                   p = info_path i /\ j = info i) /\
  (forall cmd res, In (EvRun cmd res) t ->
                   cmd = cmd_of i /\
                   exists proc, res = Ok proc /\ returncode proc = 0).
Proof.
  intros R. inversion R; subst;
    try match goal with L : @lead_in _ _ _ _ _ _ |- _ => destruct L end;
    try match goal with
        | H : match ?err with _ => _ end = Returned _ |- _ =>
            destruct err; [discriminate H|injection H as <-]
        end;
    try match goal with H : dry_run = _ |- _ => rewrite H end;
    (split; [reflexivity|]); split; intros; in_events; eauto.
Qed.

(** A turn in which a conversion fails stops the program there: the
    failing call and the message are the last two events, the world is the
    one the call left, and nothing was written or converted before in this
    turn. *)
Lemma part_run_failed (i : Z) (created : list str) (r : outcome (list str))
    (w' : W) (t : list event) (cmd : list str) (proc : CompletedProcess) :
  turn i created r w' t ->
  In (EvRun cmd (Ok proc)) t -> returncode proc <> 0 ->
  r = Exited 1 /\ cmd = cmd_of i /\
  exists pre w0,
    t = pre ++ [EvRun cmd (Ok proc); EvPrint (MsgFail (i + 1) (stderr proc))] /\
    subprocess_run host cmd w0 = (w', Ok proc) /\
    (forall p j err, ~ In (EvWrite p j err) pre) /\
    (forall c res, ~ In (EvRun c res) pre).
Proof.
  intros R Hin Hrc.
  inversion R; subst;
    try match goal with L : @lead_in _ _ _ _ _ _ |- _ => destruct L end;
    in_events; try contradiction.
  all: split; [reflexivity|]; split; [reflexivity|].
  - exists [EvMakeDirs (part_dir i) None; EvExists (out_file i) false;
            EvPrint (MsgExec (cmd_of i))], w0.
    repeat split; try assumption; intros; intros Hx; in_events.
  - exists [EvMakeDirs (part_dir i) None; EvExists (out_file i) true;
            EvRemove (out_file i) err; EvPrint (MsgExec (cmd_of i))], w0.
    repeat split; try assumption; intros; intros Hx; in_events.
Qed.


Lemma part_run_dry (i : Z) (created : list str) (r : outcome (list str))
    (w' : W) (t : list event) :
  dry_run = true -> turn i created r w' t -> Forall quiet t.
Proof.
  intros Hd R. inversion R; subst; try congruence;
    repeat constructor.
Qed.

Lemma loop_dry (idxs : list Z) :
  dry_run = true ->
  forall created w r w' t,
    loop idxs created w = (r, w', t) -> Forall quiet t.
Proof.
  intros Hd. induction idxs as [|i rest IH]; intros created w r w' t H.
  - injection H as <- <- <-. constructor.
  - apply split_parts_step in H as (r1 & w1 & t1 & R & H).
    pose proof (part_run_dry _ _ _ _ _ Hd R) as Q.
    destruct H as [(c & t2 & -> & H & ->)|(_ & _ & _ & ->)]; [|assumption].
    apply Forall_app. split; [assumption|]. eapply IH, H.
Qed.

(** The list a loop that returns hands back: the file of every part, in
    the order of the indices, in a real run; nothing new in a dry run. *)
Lemma loop_returned (idxs : list Z) :
  forall created w c w' t,
    loop idxs created w = (Returned c, w', t) ->
    c = created ++ (if dry_run then [] else map (fun i => out_file i) idxs).
Proof.
  induction idxs as [|i rest IH]; intros created w c w' t H.
  - injection H as <- <- <-. destruct dry_run; now rewrite app_nil_r.
  - apply split_parts_step in H as (r1 & w1 & t1 & R & H).
    destruct H as [(c1 & t2 & -> & H & ->)|(Hn & <- & _)];
      [|now contradiction (Hn c)].
    apply part_run_returned in R as (-> & _).
    apply IH in H. subst c. destruct dry_run; [reflexivity|].
    cbn [map]. now rewrite <- app_assoc.
Qed.


Lemma part_run_records (i : Z) (created c : list str) (w' : W)
    (t : list event) :
  dry_run = false -> turn i created (Returned c) w' t ->
  records_written t = [info i].
Proof.
  intros Hd R. inversion R; subst; try congruence;
    try match goal with L : @lead_in _ _ _ _ _ _ |- _ => destruct L end;
    reflexivity.
Qed.

(** In a real run that completes, the records written are those of the
    parts of the loop, one each, in order. *)
Lemma loop_records (idxs : list Z) :
  dry_run = false ->
  forall created w c w' t,
    loop idxs created w = (Returned c, w', t) ->
    records_written t = map (fun i => info i) idxs.
Proof.
  intros Hd. induction idxs as [|i rest IH]; intros created w c w' t H.
  - now injection H as <- <- <-.
  - apply split_parts_step in H as (r1 & w1 & t1 & R & H).
    destruct H as [(c1 & t2 & -> & H & ->)|(Hn & <- & _)];
      [|now contradiction (Hn c)].
    unfold records_written in *. rewrite flat_map_app.
    fold (records_written t1). rewrite (part_run_records _ _ _ _ _ Hd R).
    cbn [map app]. f_equal. eapply IH, H.
Qed.

(** Fail-fast, for the loop.  When a conversion fails the run ends there
    with status 1: the failing call and its message close the trace, the
    world is the one the call left, and every record written and every
    conversion made before belongs to an earlier index of the loop. *)
Lemma loop_fail_fast (idxs : list Z) :
  forall created w r w' t cmd proc,
    loop idxs created w = (r, w', t) ->
    In (EvRun cmd (Ok proc)) t -> returncode proc <> 0 ->
    r = Exited 1 /\
    exists before i after pre w0,
      idxs = before ++ i :: after /\
      cmd = cmd_of i /\
      t = pre ++ [EvRun cmd (Ok proc);
                  EvPrint (MsgFail (i + 1) (stderr proc))] /\
      subprocess_run host cmd w0 = (w', Ok proc) /\
      (forall p j err, In (EvWrite p j err) pre ->
                       exists k, In k before /\ p = info_path k /\ j = info k) /\
      (forall c res, In (EvRun c res) pre ->
                     exists k q, In k before /\ c = cmd_of k /\
                                 res = Ok q /\ returncode q = 0).
Proof.
  induction idxs as [|i rest IH]; intros created w r w' t cmd proc H Hin Hrc.
  - injection H as <- <- <-. destruct Hin.
  - apply split_parts_step in H as (r1 & w1 & t1 & R & H).
    destruct H as [(c1 & t2 & -> & H & ->)|(_ & <- & <- & <-)].
    + pose proof (part_run_returned _ _ _ _ _ R) as (_ & Hw & Hr).
      apply in_app_or in Hin as [Hin|Hin].
      { apply Hr in Hin as (_ & q & [= <-] & Hq). contradiction. }
      destruct (IH _ _ _ _ _ _ _ H Hin Hrc)
        as (-> & before & k & after & pre & w0 & -> & -> & -> & Hrun & Hpw & Hpr).
      split; [reflexivity|].
      exists (i :: before), k, after, (t1 ++ pre), w0.
      repeat split; try assumption; try (now rewrite app_assoc).
      * intros p j err Hp. apply in_app_or in Hp as [Hp|Hp].
        -- apply Hw in Hp as (-> & ->). exists i. cbn. auto.
        -- apply Hpw in Hp as (k' & Hk & -> & ->). exists k'. cbn. auto.
      * intros c res Hp. apply in_app_or in Hp as [Hp|Hp].
        -- apply Hr in Hp as (-> & q & -> & Hq). exists i, q. cbn. auto.
        -- apply Hpr in Hp as (k' & q & Hk & -> & -> & Hq).
           exists k', q. cbn. auto.
    + destruct (part_run_failed _ _ _ _ _ _ _ R Hin Hrc)
        as (-> & -> & pre & w0 & -> & Hrun & Hpw & Hpr).
      split; [reflexivity|].
      exists [], i, rest, pre, w0.
      repeat split; try assumption; try reflexivity.
      * intros p j err Hp. now apply Hpw in Hp.
      * intros c res Hp. now apply Hpr in Hp.
Qed.

End Runs.

Section Video.

Context {W : Type} (host : Host W).

Variables (input_path : str) (max_seconds : Z) (given_root : option str).
Variables (overwrite dry_run : bool).

Abbreviation root := (resolve_output_root host input_path given_root).


(** The runs of [split_video]: either it stops with an exception before
    the loop, or it probes, floors the duration, counts the parts, prints
    the preamble and runs the loop, and returns the summary when the loop
    returns. *)
Lemma split_video_inv (w w' : W) (r : outcome Summary) (t : list event) :
  split_video host input_path max_seconds given_root overwrite dry_run w
  = (r, w', t) ->
  (exists e, r = Raised e /\ Forall (early input_path) t)
  \/ exists res x total n w1 rl tl,
      float_of_str host (strip (stdout res)) = Some x /\
      math_floor x = Ok total /\
      num_parts_of total max_seconds = Ok n /\
      timedelta_seconds total = Ok tt /\
      split_parts host input_path total max_seconds root overwrite dry_run
        (py_range n) [] w1 = (rl, w', tl) /\
      t = EvRun (ffprobe_cmd input_path) (Ok res)
          :: preamble input_path max_seconds root total n ++ tl
          ++ (match rl with Returned _ => [EvPrint MsgDone] | _ => [] end) /\
      r = match rl with
          | Returned created =>
              Returned {| total_seconds := total;
                          max_part_seconds := max_seconds;
                          num_parts := n;
                          output_root := path_abspath host root;
                          outputs := created |}
          | Raised e => Raised e
          | Exited k => Exited k
          end.
Proof.
  unfold split_video, ffprobe_duration_seconds, bind, run, ensure_dir, print,
    answer, raise, ret.
  destruct (subprocess_run host (ffprobe_cmd input_path) w) as [w0 [res|e]];
    cbv beta iota zeta.
  2:{ intros [= <- <- <-]. left. eexists. split; [reflexivity|].
      repeat constructor. }
  destruct (Z.eqb_spec (returncode res) 0) as [Hrc|Hrc]; cbn [negb];
    cbv beta iota zeta.
  2:{ intros [= <- <- <-]. left. eexists. split; [reflexivity|].
      repeat constructor. }
  destruct (float_of_str host (strip (stdout res))) as [x|] eqn:Hx;
    cbv beta iota zeta.
  2:{ intros [= <- <- <-]. left. eexists. split; [reflexivity|].
      repeat constructor. }
  destruct (math_floor x) as [total|e] eqn:Hfloor; cbn [lift];
    unfold ret, raise; cbv beta iota zeta.
  2:{ intros [= <- <- <-]. left. eexists. split; [reflexivity|].
      repeat constructor. }
  destruct (num_parts_of total max_seconds) as [n|e] eqn:Hn; cbn [lift];
    unfold ret, raise; cbv beta iota zeta.
  2:{ intros [= <- <- <-]. left. eexists. split; [reflexivity|].
      repeat constructor. }
  destruct (makedirs host root w0) as [w1 [e|]]; cbv beta iota zeta.
  { intros [= <- <- <-]. left. eexists. split; [reflexivity|].
    repeat constructor. }
  destruct (timedelta_seconds total) as [[]|e] eqn:Htd; cbn [lift];
    unfold ret, raise; cbv beta iota zeta.
  2:{ intros [= <- <- <-]. left. eexists. split; [reflexivity|].
      repeat constructor. }
  destruct (str_checked max_seconds) as [text|e] eqn:Htext; cbn [lift];
    unfold ret, raise; cbv beta iota zeta.
  2:{ intros [= <- <- <-]. left. eexists. split; [reflexivity|].
      repeat constructor. }
  destruct (split_parts host input_path total max_seconds root overwrite
              dry_run (py_range n) [] w1) as [[rl w2] tl] eqn:Hloop.
  intros H. right. exists res, x, total, n, w1, rl, tl.
  destruct rl; injection H as <- <- <-; cbn [app];
    repeat split; try assumption; try reflexivity.
  all: now rewrite ?app_nil_r.
Qed.

End Video.

(** ** Distinct parts, distinct commands *)

Lemma str_of_Z_inj (a b : Z) : str_of_Z a = str_of_Z b -> a = b.
Proof.
  unfold str_of_Z. intros H.
  apply (f_equal string_of_list_ascii) in H.
  rewrite !string_of_list_ascii_of_string in H.
  assert (N : forall z, Z.to_int z <> Decimal.Pos Decimal.Nil
                        /\ Z.to_int z <> Decimal.Neg Decimal.Nil).
  { intros [|p|p]; cbn; split; try discriminate;
      intros [= E]; now apply DecimalPos.Unsigned.to_uint_nonnil in E. }
  apply (f_equal NilZero.int_of_string) in H.
  rewrite !NilZero.isi in H by apply N.
  injection H as H. apply (f_equal Z.of_int) in H.
  now rewrite !DecimalZ.of_to in H.
Qed.

Lemma ffmpeg_cmd_start (input_path out out' : str) (s d s' d' : Z) :
  ffmpeg_cmd input_path out s d = ffmpeg_cmd input_path out' s' d' -> s = s'.
Proof.
  unfold ffmpeg_cmd. intros [= H _ _]. now apply str_of_Z_inj.
Qed.

Lemma ffmpeg_is_not_ffprobe (input_path out : str) (s d : Z) :
  ffmpeg_cmd input_path out s d <> ffprobe_cmd input_path.
Proof. unfold ffmpeg_cmd, ffprobe_cmd. intros [= H]. Qed.

Lemma num_parts_max_nonzero (total max_seconds n : Z) :
  num_parts_of total max_seconds = Ok n -> max_seconds <> 0.
Proof.
  unfold num_parts_of, true_divide. intros H ->. discriminate H.
Qed.

Lemma py_range_NoDup (n : Z) : NoDup (py_range n).
Proof.
  unfold py_range. apply Injective_map_NoDup.
  - intros a b. apply Nat2Z.inj.
  - apply seq_NoDup.
Qed.

(** An index of [range(n)] and the indices before it. *)
Lemma py_range_split (n i : Z) (before after : list Z) :
  py_range n = before ++ i :: after ->
  0 <= i < n /\ (forall k, In k before -> 0 <= k < i)
  /\ i = Z.of_nat (List.length before).
Proof.
  intros E.
  assert (Hnth : forall m x, nth_error (py_range n) m = Some x ->
                             x = Z.of_nat m).
  { intros m x. unfold py_range. rewrite nth_error_map, nth_error_seq.
    destruct (Nat.ltb m (Z.to_nat n)); cbn; congruence. }
  assert (Hi : i = Z.of_nat (List.length before)).
  { apply Hnth. rewrite E. rewrite nth_error_app2 by lia.
    now rewrite Nat.sub_diag. }
  split; [|split; [|assumption]].
  - apply py_range_In. rewrite E. apply in_or_app. right. now left.
  - intros k Hk. apply In_nth_error in Hk as (m & Hm).
    assert (Hlt : (m < List.length before)%nat)
      by (apply nth_error_Some; congruence).
    assert (k = Z.of_nat m).
    { apply Hnth. rewrite E. now rewrite nth_error_app1. }
    lia.
Qed.

(** ** Existing outputs *)

Section Skipping.

Context {W : Type} (host : Host W).

Variables (input_path : str) (total max_seconds : Z) (root : str).

Abbreviation part_dir i := (part_dir_of host root i).
Abbreviation out_file i := (out_file_of host root i).
Abbreviation info_path i := (info_path_of host root i).
Abbreviation info i := (info_of host input_path total max_seconds i).
Abbreviation cmd_of i :=
  (ffmpeg_cmd input_path (out_file_of host root i)
     (part_start max_seconds i) (part_duration total max_seconds i)).
Abbreviation kept_at i err :=
  (kept host input_path total max_seconds root i err).
Abbreviation turn overwrite dry_run :=
  (part_run host input_path total max_seconds root overwrite dry_run).
Abbreviation loop overwrite dry_run :=
  (split_parts host input_path total max_seconds root overwrite dry_run).


Lemma part_run_kept (i : Z) (created : list str) (r : outcome (list str))
    (w' : W) (t : list event) (out : str) :
  turn false false i created r w' t ->
  In (EvExists out true) t ->
  out = out_file i /\ exists err, t = kept_at i err.
Proof.
  intros R Hin. inversion R; subst; try discriminate;
    try match goal with L : @lead_in _ _ _ _ _ _ |- _ => destruct L end;
    try discriminate; in_events.
  split; [reflexivity|]. now exists err.
Qed.

(** A turn converts nothing but its own part, and removes a file only when
    overwriting was asked for. *)
Lemma part_run_events (overwrite dry_run : bool) (i : Z)
    (created : list str) (r : outcome (list str)) (w' : W) (t : list event) :
  turn overwrite dry_run i created r w' t ->
  (forall c res, In (EvRun c res) t -> c = cmd_of i) /\
  (forall p e, In (EvRemove p e) t -> overwrite = true).
Proof.
  intros R. inversion R; subst;
    try match goal with L : @lead_in _ _ _ _ _ _ |- _ => destruct L end;
    split; intros; in_events; congruence.
Qed.

Lemma loop_events (overwrite dry_run : bool) (idxs : list Z) :
  forall created w r w' t,
    loop overwrite dry_run idxs created w = (r, w', t) ->
    (forall c res, In (EvRun c res) t -> exists k, In k idxs /\ c = cmd_of k) /\
    (forall p e, In (EvRemove p e) t -> overwrite = true).
Proof.
  induction idxs as [|i rest IH]; intros created w r w' t H.
  - injection H as <- <- <-. split; intros; contradiction.
  - apply split_parts_step in H as (r1 & w1 & t1 & R & H).
    apply part_run_events in R as [Rc Rr].
    assert (Hhere : (forall c res, In (EvRun c res) t1 ->
                        exists k, In k (i :: rest) /\ c = cmd_of k)).
    { intros c res Hc. exists i. split; [now left|eauto]. }
    destruct H as [(c1 & t2 & -> & H & ->)|(_ & _ & _ & ->)];
      [|split; eauto].
    apply IH in H as [Lc Lr]. split.
    + intros c res Hc. apply in_app_or in Hc as [Hc|Hc]; [eauto|].
      apply Lc in Hc as (k & Hk & ->). exists k. split; [now right|reflexivity].
    + intros p e Hp. apply in_app_or in Hp as [Hp|Hp]; eauto.
Qed.

(** Where the loop finds an output in place and overwriting was not asked
    for, the turn of that part is [kept], and every conversion of the run
    belongs to another index of the loop. *)
Lemma loop_kept (idxs : list Z) (out : str) :
  forall created w r w' t,
    loop false false idxs created w = (r, w', t) ->
    In (EvExists out true) t ->
    exists before i after pre post err,
      idxs = before ++ i :: after /\
      out = out_file i /\
      t = pre ++ kept_at i err ++ post /\
      (forall c res, In (EvRun c res) t ->
                     exists k, In k (before ++ after) /\ c = cmd_of k).
Proof.
  induction idxs as [|i rest IH]; intros created w r w' t H Hin.
  - injection H as <- <- <-. destruct Hin.
  - apply split_parts_step in H as (r1 & w1 & t1 & R & H).
    pose proof (part_run_events _ _ _ _ _ _ _ R) as [Rc _].
    destruct H as [(c1 & t2 & -> & H & ->)|(_ & _ & _ & ->)].
    + apply in_app_or in Hin as [Hin|Hin].
      * destruct (part_run_kept _ _ _ _ _ _ R Hin) as (-> & err & ->).
        pose proof (loop_events _ _ _ _ _ _ _ _ H) as [Lc _].
        exists [], i, rest, [], t2, err. repeat split.
        intros c res Hc. apply in_app_or in Hc as [Hc|Hc].
        -- unfold kept in Hc. in_events.
        -- apply Lc in Hc as (k & Hk & ->). now exists k.
      * destruct (IH _ _ _ _ _ H Hin)
          as (before & k & after & pre & post & err & -> & -> & -> & Hc).
        exists (i :: before), k, after, (t1 ++ pre), post, err.
        repeat split; [now rewrite <- app_assoc|].
        intros c res Hx. apply in_app_or in Hx as [Hx|Hx].
        -- exists i. split; [now left|eauto].
        -- apply Hc in Hx as (j & Hj & ->). exists j. split; [now right|reflexivity].
    + destruct (part_run_kept _ _ _ _ _ _ R Hin) as (-> & err & ->).
      exists [], i, rest, [], [], err.
      split; [reflexivity|]. split; [reflexivity|].
      split; [cbn [app]; now rewrite app_nil_r|].
      intros c res Hc. unfold kept in Hc. in_events.
Qed.

End Skipping.

(** ** The claims on runs of [split_video] and [main] *)



Section Claims.

Context {W : Type} (host : Host W).

Variables (input_path : str) (max_seconds : Z) (given_root : option str).

Abbreviation the_root := (resolve_output_root host input_path given_root).
Abbreviation command total k :=
  (ffmpeg_cmd input_path (out_file_of host the_root k)
     (part_start max_seconds k) (part_duration total max_seconds k)).

Lemma early_no_conversion (t : list event) (cmd : list str)
    (res : result CompletedProcess) :
  Forall (early input_path) t -> In (EvRun cmd res) t ->
  hd [] cmd = py "ffmpeg" -> False.
Proof.
  intros F Hin Hhd. rewrite Forall_forall in F. apply F in Hin.
  cbn in Hin. subst cmd. discriminate Hhd.
Qed.



(** X2.  In a dry run no file is written or removed, no existence test is made
    and no conversion is run: besides the probe, the program only makes
    directories and prints. *)
Lemma dry_run_events (overwrite : bool) (w w' : W) (r : outcome Summary)
    (t : list event) :
  split_video host input_path max_seconds given_root overwrite true w
  = (r, w', t) ->
  Forall (dry_event input_path) t.
Proof.
  intros H. apply split_video_inv in H as [(e & -> & F)|H].
  { eapply Forall_impl; [|exact F].
    intros [] He; cbn in *; auto; contradiction. }
  destruct H as (res & x & total & n & w1 & rl & tl
                 & Hx & Hfloor & Hn & Htd & Hloop & -> & ->).
  constructor; [reflexivity|].
  apply Forall_app. split; [repeat constructor|].
  apply Forall_app. split; [|destruct rl; repeat constructor].
  apply loop_dry in Hloop; [|reflexivity].
  eapply Forall_impl; [|exact Hloop].
  intros [] He; cbn in *; auto; contradiction.
Qed.

(** X3.  In a real run that returns, the records written are the plan. *)
Lemma split_video_follows_plan (overwrite : bool) (w w' : W) (s : Summary)
    (t : list event) :
  split_video host input_path max_seconds given_root overwrite false w
  = (Returned s, w', t) ->
  plan_of (total_seconds s) max_seconds
  = Ok (map descriptor_of (records_written t)).
Proof.
  intros H. apply split_video_inv in H as [(e & [=] & _)|H].
  destruct H as (res & x & total & n & w1 & rl & tl
                 & Hx & Hfloor & Hn & Htd & Hloop & -> & Hr).
  destruct rl as [c| |]; try discriminate. injection Hr as ->.
  cbn [total_seconds]. unfold plan_of. rewrite Hn. cbn [rbind]. f_equal.
  apply loop_records in Hloop; [|reflexivity].
  unfold records_written in *. cbn [flat_map app].
  rewrite !flat_map_app. cbn [flat_map app]. rewrite app_nil_r, Hloop.
  unfold preamble. cbn [flat_map app]. rewrite map_map. reflexivity.
Qed.


(** C7.  A maximum length that parses to zero or less is refused by
    [main]: the program prints the complaint and exits with status 1
    having done nothing but test that the input exists; the duration is
    not probed, nothing is planned and the world is as it was. *)
Theorem nonpositive_max_rejected (args : Args) (w : W) (m : Z) :
  path_exists host (arg_input args) w = true ->
  parse_duration_to_seconds (arg_max args) = Ok m ->
  m <= 0 ->
  main host args w
  = (Exited 1, w, [EvExists (arg_input args) true; EvPrint MsgMaxNotPositive]).
Proof.
  intros Hex Hparse Hm. unfold main, bind, os_path_exists, print, sys_exit.
  rewrite Hex, Hparse. cbn [negb].
  destruct (Z.leb_spec m 0); [reflexivity|lia].
Qed.

End Claims.

(** ** Runs on the concrete host *)

Lemma run_eta {A B C : Type} (x : A * B * C) :
  x = (fst (fst x), snd (fst x), snd x).
Proof. now destruct x as [[? ?] ?]. Qed.






Lemma nonpositive_max_rejected_witness :
  path_exists Demo.host (arg_input DemoRuns.zero_max) (Demo.fresh "125.3" [])
  = true
  /\ parse_duration_to_seconds (arg_max DemoRuns.zero_max) = Ok 0
  /\ 0 <= 0
  /\ main Demo.host DemoRuns.zero_max (Demo.fresh "125.3" [])
     = (Exited 1, Demo.fresh "125.3" [],
        [EvExists Demo.talk true; EvPrint MsgMaxNotPositive]).
Proof.
  split; [reflexivity|]. split; [reflexivity|]. split; [lia|].
  exact (nonpositive_max_rejected Demo.host DemoRuns.zero_max
           (Demo.fresh "125.3" []) 0 eq_refl eq_refl ltac:(lia)).
Defined.


(** C2, at an input where the code departs from it.  A dry run on a
    source of 125 seconds, with no output directory yet, makes the output
    root and the directory of each of the three parts: the directories of
    the world are not the ones it started with.  Nothing else changes. *)
Theorem dry_run_makes_directories :
  Demo.dirs (Demo.fresh "125" []) = [py "/"; py "/v"] /\
  Demo.dirs (snd (fst DemoRuns.dry_run_125))
  = [py "/"; py "/v"; py "/v/talk_split"; py "/v/talk_split/part_001";
     py "/v/talk_split/part_002"; py "/v/talk_split/part_003"] /\
  In (EvMakeDirs (py "/v/talk_split") None) (snd DemoRuns.dry_run_125) /\
  In (EvMakeDirs (py "/v/talk_split/part_001") None)
    (snd DemoRuns.dry_run_125) /\
  Demo.files (snd (fst DemoRuns.dry_run_125)) = [Demo.talk] /\
  Demo.metadata (snd (fst DemoRuns.dry_run_125)) = [].
Proof.
  vm_compute. repeat split; find_event.
Qed.

(** ** Further instances *)

Lemma plan_is_partition_witness :
  0 <= 125 < 2 ^ 53 /\ 0 < 60 < 2 ^ 1075 /\
  exists plan,
    plan_of 125 60 = Ok plan /\
    Z.of_nat (List.length plan) = ceil_div 125 60 /\
    (125 = 0 -> plan = []) /\
    forall i, 0 <= i < ceil_div 125 60 ->
      nth_error plan (Z.to_nat i)
      = Some (i + 1, i * 60, Z.min 60 (125 - i * 60),
              if i + 1 <? ceil_div 125 60 then (i + 1) * 60 else 125)
      /\ 0 < Z.min 60 (125 - i * 60).
Proof.
  assert (H1 : 0 <= 125 < 2 ^ 53) by (split; [lia|reflexivity]).
  assert (H2 : 0 < 60 < 2 ^ 1075) by (split; [lia|reflexivity]).
  split; [exact H1|]. split; [exact H2|].
  exact (plan_is_partition 125 60 H1 H2).
Defined.

Lemma dry_run_events_witness :
  Forall (dry_event Demo.talk) (snd DemoRuns.dry_run_125).
Proof.
  exact (dry_run_events Demo.host Demo.talk 60 None false _ _ _ _
           (run_eta DemoRuns.dry_run_125)).
Defined.

Lemma split_video_follows_plan_witness :
  plan_of 125 60
  = Ok (map descriptor_of (records_written (snd DemoRuns.first_run))).
Proof.
  assert (E : split_video Demo.host Demo.talk 60 None false false
                (Demo.fresh "125.3" [])
              = (Returned {| total_seconds := 125; max_part_seconds := 60;
                             num_parts := 3;
                             output_root := py "/v/talk_split";
                             outputs :=
                               [py "/v/talk_split/part_001/part_001.mp4";
                                py "/v/talk_split/part_002/part_002.mp4";
                                py "/v/talk_split/part_003/part_003.mp4"] |},
                 snd (fst DemoRuns.first_run), snd DemoRuns.first_run))
    by (vm_compute; reflexivity).
  exact (split_video_follows_plan Demo.host Demo.talk 60 None false _ _ _ _ E).
Defined.

(** * Further properties of the duration parser *)

Lemma isspace_lower_char (c : ascii) : isspace (lower_char c) = isspace c.
Proof. destruct c as [[] [] [] [] [] [] [] []]; reflexivity. Qed.

Lemma lower_char_idempotent (c : ascii) :
  lower_char (lower_char c) = lower_char c.
Proof. destruct c as [[] [] [] [] [] [] [] []]; reflexivity. Qed.

Lemma lstrip_with_map (sp : ascii -> bool) (f : ascii -> ascii) (s : str) :
  (forall c, sp (f c) = sp c) ->
  lstrip_with sp (map f s) = map f (lstrip_with sp s).
Proof.
  intros H. induction s as [|c r IH]; cbn [map lstrip_with]; [reflexivity|].
  rewrite H. destruct (sp c); [assumption|reflexivity].
Qed.

(** Lower-casing and stripping commute. *)
Lemma strip_lower (s : str) : strip (lower s) = lower (strip s).
Proof.
  unfold strip, strip_with, lower.
  rewrite lstrip_with_map by apply isspace_lower_char.
  rewrite <- map_rev, lstrip_with_map by apply isspace_lower_char.
  now rewrite map_rev.
Qed.

Lemma lower_idempotent (s : str) : lower (lower s) = lower s.
Proof.
  unfold lower. rewrite map_map. apply map_ext.
  apply lower_char_idempotent.
Qed.

Lemma lstrip_with_all (sp : ascii -> bool) (a s : str) :
  forallb sp a = true -> lstrip_with sp (a ++ s) = lstrip_with sp s.
Proof.
  induction a as [|c r IH]; cbn [forallb app lstrip_with]; [reflexivity|].
  intros H. apply andb_prop in H as [-> Hr]. auto.
Qed.

Lemma lstrip_with_app (sp : ascii -> bool) (s b : str) :
  lstrip_with sp s <> [] ->
  lstrip_with sp (s ++ b) = lstrip_with sp s ++ b.
Proof.
  induction s as [|c r IH]; cbn [app lstrip_with]; [contradiction|].
  destruct (sp c); auto.
Qed.

Lemma forallb_rev {A : Type} (f : A -> bool) (l : list A) :
  forallb f (rev l) = forallb f l.
Proof.
  induction l as [|x r IH]; [reflexivity|].
  cbn [rev forallb]. rewrite forallb_app, IH. cbn. rewrite andb_true_r.
  apply andb_comm.
Qed.

(** White space around a string does not count. *)
Lemma strip_with_surrounded (sp : ascii -> bool) (a s b : str) :
  forallb sp a = true -> forallb sp b = true ->
  strip_with sp (a ++ s ++ b) = strip_with sp s.
Proof.
  intros Ha Hb. unfold strip_with. rewrite (lstrip_with_all sp a) by assumption.
  destruct (lstrip_with sp s) as [|c r] eqn:E.
  - assert (Hs : forallb sp s = true).
    { clear -E. induction s as [|x t IH]; [reflexivity|].
      cbn [lstrip_with] in E. cbn [forallb].
      destruct (sp x); [auto|discriminate]. }
    rewrite <- (app_nil_r (s ++ b)), lstrip_with_all; [reflexivity|].
    now rewrite forallb_app, Hs.
  - rewrite lstrip_with_app by (rewrite E; discriminate).
    rewrite E, rev_app_distr, lstrip_with_all; [reflexivity|].
    now rewrite forallb_rev.
Qed.

(** X4.  The parser does not see white space around its input
    nor the case of its letters. *)
Theorem parse_duration_normalises (a s b : str) :
  forallb isspace a = true -> forallb isspace b = true ->
  parse_duration_to_seconds (a ++ s ++ b) = parse_duration_to_seconds s /\
  parse_duration_to_seconds (lower s) = parse_duration_to_seconds s.
Proof.
  intros Ha Hb. unfold parse_duration_to_seconds. cbv zeta. split.
  - unfold strip. now rewrite strip_with_surrounded.
  - now rewrite strip_lower, lower_idempotent.
Qed.

Lemma parse_duration_normalises_witness :
  forallb isspace (py "  ") = true /\ forallb isspace [ascii_of_nat 10] = true /\
  parse_duration_to_seconds (py "  " ++ py "1:02:03" ++ [ascii_of_nat 10])
  = parse_duration_to_seconds (py "1:02:03").
Proof.
  split; [reflexivity|]. split; [reflexivity|].
  exact (proj1 (parse_duration_normalises (py "  ") (py "1:02:03")
                  [ascii_of_nat 10] eq_refl eq_refl)).
Defined.

Lemma decimal_not_suffix_letter (ds : str) (x : str) :
  ds <> [] -> forallb isdecimal ds = true ->
  forallb isdecimal (firstn 1 (rev x)) = false ->
  endswith x ds = false.
Proof.
  intros Hne Hall Hx. unfold endswith.
  assert (Hrev : forallb isdecimal (rev ds) = true) by now rewrite forallb_rev.
  destruct (rev x) as [|c r]; [discriminate|].
  destruct (rev ds) as [|d t] eqn:E.
  { apply (f_equal (@rev ascii)) in E. rewrite rev_involutive in E.
    now subst. }
  cbn [startswith]. cbn in Hx, Hrev. rewrite andb_true_r in Hx.
  apply andb_prop in Hrev as [Hd _].
  destruct (Ascii.eqb_spec c d) as [->|_]; [congruence|reflexivity].
Qed.

(** X5.  The grammars for seconds.  After stripping and lower-casing, a
    non-empty string of decimal digits, alone or followed by [s] or by
    [ sec], parses to the value of the digits when there are no more of
    them than [int()] accepts, and raises [ValueError] when there are more
    than 4300. *)
Theorem parse_duration_seconds (s ds : str) :
  ds <> [] -> forallb isdecimal ds = true ->
  lower (strip s) = ds \/ lower (strip s) = ds ++ py "s"
  \/ lower (strip s) = ds ++ py " sec" ->
  parse_duration_to_seconds s
  = if (default_max_str_digits <? List.length ds)%nat then Raise ValueError
    else Ok (decimal_value ds).
Proof.
  intros Hne Hall [H|[H|H]].
  - unfold parse_duration_to_seconds. cbv zeta. rewrite H.
    assert (Hcolon : contains ":" ds = false).
    { rewrite <- (app_nil_r ds). now apply decimal_no_colon. }
    rewrite Hcolon.
    rewrite !decimal_not_suffix_letter by (assumption || reflexivity).
    cbn [orb].
    assert (Hdig : str_isdigit ds = true).
    { unfold str_isdigit. destruct ds; [contradiction|].
      apply forallb_forall. intros x Hx. apply isdecimal_isdigit.
      rewrite forallb_forall in Hall. auto. }
    rewrite Hdig. now apply int_decimal.
  - rewrite <- (Z.mul_1_r (decimal_value ds)).
    eapply parse_suffixed; [exact Hne|exact Hall|exact H|reflexivity
                           |reflexivity|].
    cbv zeta. rewrite !endswith_app. reflexivity.
  - rewrite <- (Z.mul_1_r (decimal_value ds)).
    eapply parse_suffixed; [exact Hne|exact Hall|exact H|reflexivity
                           |reflexivity|].
    cbv zeta. rewrite !endswith_app. reflexivity.
Qed.

Lemma parse_duration_seconds_witness :
  py "5400" <> [] /\ forallb isdecimal (py "5400") = true /\
  parse_duration_to_seconds (py " 5400 SEC") = Ok 5400.
Proof.
  split; [discriminate|]. split; [reflexivity|].
  apply (parse_duration_seconds (py " 5400 SEC") (py "5400"));
    [discriminate|reflexivity|].
  right. right. reflexivity.
Defined.

Lemma split_no_sep (sep : ascii) (s : str) :
  contains sep s = false -> split sep s = [s].
Proof.
  unfold contains. induction s as [|c r IH]; [reflexivity|].
  cbn [existsb split]. intros H. apply orb_false_elim in H as [Hc Hr].
  rewrite Ascii.eqb_sym, Hc, (IH Hr). reflexivity.
Qed.

Lemma split_at_sep (sep : ascii) (a r : str) :
  contains sep a = false ->
  split sep (a ++ sep :: r) = a :: split sep r.
Proof.
  unfold contains. induction a as [|c t IH]; cbn [existsb app split].
  - intros _. now rewrite Ascii.eqb_refl.
  - intros H. apply orb_false_elim in H as [Hc Ht].
    rewrite Ascii.eqb_sym, Hc, (IH Ht). reflexivity.
Qed.

Lemma decimal_contains_no (c : ascii) (ds : str) :
  isdecimal c = false -> forallb isdecimal ds = true ->
  contains c ds = false.
Proof.
  intros Hc Hall. apply contains_false. intros Hin.
  rewrite forallb_forall in Hall. apply Hall in Hin. congruence.
Qed.

(** X6.  The clock grammar.  After stripping and lower-casing, three
    non-empty strings of decimal digits separated by colons parse to
    hours times 3600 plus minutes times 60 plus seconds; the value of no
    field is bounded, but a field of more than 4300 digits makes the parser
    raise [ValueError]. *)
Theorem parse_duration_clock (s h m sec : str) :
  h <> [] -> m <> [] -> sec <> [] ->
  forallb isdecimal (h ++ m ++ sec) = true ->
  lower (strip s) = h ++ py ":" ++ m ++ py ":" ++ sec ->
  parse_duration_to_seconds s
  = if (default_max_str_digits <? List.length h)%nat
       || (default_max_str_digits <? List.length m)%nat
       || (default_max_str_digits <? List.length sec)%nat
    then Raise ValueError
    else Ok (decimal_value h * 3600 + decimal_value m * 60
             + decimal_value sec).
Proof.
  intros Hh Hm Hs Hall E.
  rewrite !forallb_app in Hall.
  apply andb_prop in Hall as [Dh Hall]. apply andb_prop in Hall as [Dm Ds].
  unfold parse_duration_to_seconds. cbv zeta. rewrite E.
  assert (Hcolon : contains ":" (h ++ py ":" ++ m ++ py ":" ++ sec) = true).
  { unfold contains. rewrite existsb_app. cbn. apply orb_true_r. }
  rewrite Hcolon. cbn [py list_ascii_of_string app].
  rewrite split_at_sep by now apply decimal_contains_no.
  rewrite split_at_sep by now apply decimal_contains_no.
  rewrite split_no_sep by now apply decimal_contains_no.
  rewrite !int_decimal by assumption.
  now destruct (default_max_str_digits <? List.length h)%nat,
    (default_max_str_digits <? List.length m)%nat,
    (default_max_str_digits <? List.length sec)%nat.
Qed.

Lemma parse_duration_clock_witness :
  py "0" <> [] /\ py "90" <> [] /\ py "07" <> [] /\
  forallb isdecimal (py "0" ++ py "90" ++ py "07") = true /\
  parse_duration_to_seconds (py "0:90:07") = Ok 5407.
Proof.
  split; [discriminate|]. split; [discriminate|]. split; [discriminate|].
  split; [reflexivity|].
  exact (parse_duration_clock (py "0:90:07") (py "0") (py "90") (py "07")
           ltac:(discriminate) ltac:(discriminate) ltac:(discriminate)
           eq_refl eq_refl).
Defined.

Lemma split_length (sep : ascii) (s : str) :
  List.length (split sep s) = S (count_occ ascii_dec s sep).
Proof.
  induction s as [|c r IH]; [reflexivity|]. cbn [split count_occ].
  destruct (Ascii.eqb_spec c sep) as [->|Hne].
  - destruct (ascii_dec sep sep); [|contradiction]. cbn. now rewrite IH.
  - destruct (ascii_dec c sep); [contradiction|].
    destruct (split sep r); [discriminate|]. exact IH.
Qed.

(** X7.  An input with a colon is read as a clock only: when the number of
    colons is not two, the parser raises [ValueError], whatever else the
    input holds. *)
Theorem parse_duration_colon_count (s : str) :
  count_occ ascii_dec (lower (strip s)) ":"%char <> 0%nat ->
  count_occ ascii_dec (lower (strip s)) ":"%char <> 2%nat ->
  parse_duration_to_seconds s = Raise ValueError.
Proof.
  intros H0 H2. unfold parse_duration_to_seconds. cbv zeta.
  assert (Hcolon : contains ":" (lower (strip s)) = true).
  { apply Bool.not_false_iff_true. intros Hf. apply contains_false in Hf.
    apply H0. now apply count_occ_not_In. }
  rewrite Hcolon. pose proof (split_length ":" (lower (strip s))) as L.
  destruct (split ":" (lower (strip s))) as [|a [|b [|c [|d l]]]];
    try reflexivity.
  cbn in L. congruence.
Qed.

Lemma parse_duration_colon_count_witness :
  count_occ ascii_dec (lower (strip (py "1:30"))) ":"%char <> 0%nat /\
  count_occ ascii_dec (lower (strip (py "1:30"))) ":"%char <> 2%nat /\
  parse_duration_to_seconds (py "1:30") = Raise ValueError.
Proof.
  split; [discriminate|]. split; [discriminate|].
  exact (parse_duration_colon_count (py "1:30") ltac:(discriminate)
           ltac:(discriminate)).
Defined.

Lemma int_digits_no_decimal (s : str) (acc : Z) :
  (forall x, In x s -> isdecimal x = false) ->
  int_digits acc false s = None.
Proof.
  destruct s as [|c r]; [reflexivity|]. intros H. cbn [int_digits].
  rewrite (H c) by now left. now rewrite andb_false_r.
Qed.

(** [int()] refuses a string without a decimal digit. *)
Lemma int_no_decimal (s : str) :
  (forall x, In x s -> isdecimal x = false) -> int s = Raise ValueError.
Proof.
  intros H. unfold int, int_with.
  replace (int_literal s) with (@None Z); [reflexivity|].
  symmetry. unfold int_literal.
  assert (Ht : forall x, In x (strip_with int_space s) -> isdecimal x = false)
    by (intros x Hx; apply H; now apply strip_with_incl in Hx).
  destruct (strip_with int_space s) as [|c r]; [reflexivity|].
  assert (Hr : forall x, In x r -> isdecimal x = false)
    by (intros x Hx; apply Ht; now right).
  rewrite (int_digits_no_decimal r 0 Hr), (int_digits_no_decimal (c :: r) 0 Ht).
  now destruct (Ascii.eqb c "-"), (Ascii.eqb c "+").
Qed.

(** X8.  No digit, no duration: an input without a decimal digit makes
    the parser raise [ValueError].  The empty string, white space and words
    are refused, and nothing is ever read as a default. *)
Theorem parse_duration_needs_digit (s : str) :
  (forall x, In x s -> isdecimal x = false) ->
  parse_duration_to_seconds s = Raise ValueError.
Proof.
  intros H. unfold parse_duration_to_seconds. cbv zeta.
  set (n := lower (strip s)).
  assert (Hn : forall x, In x n -> isdecimal x = false).
  { intros x Hx. destruct (isdecimal x) eqn:Ex; [|reflexivity].
    rewrite <- Ex. apply H. apply lower_strip_incl; [|exact Hx].
    apply isdecimal_code in Ex. lia. }
  assert (Hd : int (digits_of n) = Raise ValueError).
  { apply int_no_decimal. intros x Hx. apply Hn.
    now apply filter_In in Hx. }
  destruct (contains ":" n).
  - pose proof (fun p => split_incl ":" n p) as Hp.
    destruct (split ":" n) as [|a [|b [|c [|d l]]]]; try reflexivity.
    rewrite (int_no_decimal a); [reflexivity|].
    intros x Hx. apply Hn. apply (Hp a); [now left|assumption].
  - rewrite Hd, (int_no_decimal n Hn). cbn [rbind].
    repeat match goal with
           | |- context [if ?b then _ else _] => destruct b
           end; reflexivity.
Qed.

Lemma parse_duration_needs_digit_witness :
  parse_duration_to_seconds (py "abc") = Raise ValueError.
Proof.
  apply parse_duration_needs_digit. intros x Hx. cbn in Hx.
  repeat (destruct Hx as [<-|Hx]; [reflexivity|]). destruct Hx.
Defined.

Lemma endswith_last (c : ascii) (n : str) :
  endswith [c] n = true -> exists r, rev n = c :: r.
Proof.
  unfold endswith. cbn [rev app]. destruct (rev n) as [|x r]; [discriminate|].
  cbn [startswith]. rewrite andb_true_r. intros E.
  apply Ascii.eqb_eq in E. subst. now exists r.
Qed.

(** X9.  The unit is the last letter, the number is whatever digits the
    input holds.  For an input without a colon whose normalised form ends
    in [m], the result is sixty times [int] of its digits, and for one that
    ends in [h] it is 3600 times that, whatever stands between the digits:
    ["3xm"] is three minutes and ["1h30m"] is 130 minutes. *)
Theorem parse_duration_scrapes_digits (s : str) :
  contains ":" (lower (strip s)) = false ->
  (endswith (py "m") (lower (strip s)) = true ->
   parse_duration_to_seconds s
   = (let? v := int (digits_of (lower (strip s))) in Ok (v * 60))%result) /\
  (endswith (py "h") (lower (strip s)) = true ->
   parse_duration_to_seconds s
   = (let? v := int (digits_of (lower (strip s))) in Ok (v * 3600))%result).
Proof.
  intros Hcolon. unfold parse_duration_to_seconds. cbv zeta. rewrite Hcolon.
  split; intros H; pose proof H as H'; apply endswith_last in H' as (r & E);
    rewrite H; unfold endswith in *; rewrite E; reflexivity.
Qed.

Lemma parse_duration_scrapes_digits_witness :
  contains ":" (lower (strip (py "1h30m"))) = false /\
  endswith (py "m") (lower (strip (py "1h30m"))) = true /\
  parse_duration_to_seconds (py "1h30m") = Ok 7800.
Proof.
  split; [reflexivity|]. split; [reflexivity|].
  exact (proj1 (parse_duration_scrapes_digits (py "1h30m") eq_refl) eq_refl).
Defined.

(** * Numbers in commands and names *)

Abbreviation chars_of_uint d :=
  (list_ascii_of_string (NilEmpty.string_of_uint d)).

Lemma chars_of_uint_decimal (d : Decimal.uint) :
  forallb isdecimal (chars_of_uint d) = true.
Proof.
  induction d; cbn [NilEmpty.string_of_uint list_ascii_of_string forallb];
    try rewrite IHd; reflexivity.
Qed.

Ltac digit_values :=
  repeat match goal with
         | |- context [digit_value ?c] =>
             let v := eval vm_compute in (digit_value c) in
             change (digit_value c) with v
         end.

Lemma chars_of_uint_acc (d : Decimal.uint) :
  forall acc : positive,
    fold_left (fun a c => 10 * a + digit_value c) (chars_of_uint d) (Z.pos acc)
    = Z.pos (Pos.of_uint_acc d acc).
Proof.
  induction d; intros acc;
    cbn [NilEmpty.string_of_uint list_ascii_of_string fold_left
         Pos.of_uint_acc];
    [reflexivity|..]; rewrite <- IHd; f_equal; digit_values; lia.
Qed.

Lemma chars_of_uint_value (d : Decimal.uint) :
  decimal_value (chars_of_uint d) = Z.of_uint d.
Proof.
  unfold decimal_value, Z.of_uint.
  induction d;
    cbn [NilEmpty.string_of_uint list_ascii_of_string fold_left Pos.of_uint];
    digit_values; [reflexivity|exact IHd|..];
    match goal with
    | |- fold_left _ _ ?k = _ =>
        change k with (Z.pos (Z.to_pos k)); rewrite chars_of_uint_acc
    end; reflexivity.
Qed.

Lemma str_of_Z_nonneg (n : Z) :
  0 <= n ->
  str_of_Z n <> [] /\ forallb isdecimal (str_of_Z n) = true
  /\ decimal_value (str_of_Z n) = n.
Proof.
  intros Hn. unfold str_of_Z. destruct n as [|p|p]; [|clear Hn|lia].
  { repeat split. discriminate. }
  cbn [Z.to_int NilZero.string_of_int].
  assert (E : NilZero.string_of_uint (Pos.to_uint p)
              = NilEmpty.string_of_uint (Pos.to_uint p)).
  { unfold NilZero.string_of_uint.
    pose proof (DecimalPos.Unsigned.to_uint_nonnil p).
    now destruct (Pos.to_uint p). }
  rewrite E. split; [|split].
  - pose proof (DecimalPos.Unsigned.to_uint_nonnil p).
    destruct (Pos.to_uint p); (contradiction || discriminate).
  - apply chars_of_uint_decimal.
  - rewrite chars_of_uint_value.
    change (Z.of_uint (Pos.to_uint p)) with (Z.of_int (Z.to_int (Z.pos p))).
    apply DecimalZ.of_to.
Qed.

(** A string of decimal digits is worth less than the power of ten of its
    length. *)
Lemma decimal_value_bound (ds : str) :
  forallb isdecimal ds = true ->
  0 <= decimal_value ds < 10 ^ Z.of_nat (List.length ds).
Proof.
  intros Hall. unfold decimal_value.
  assert (G : forall acc, 0 <= acc ->
            0 <= fold_left (fun a c => 10 * a + digit_value c) ds acc
              < (acc + 1) * 10 ^ Z.of_nat (List.length ds)).
  { induction ds as [|c r IH]; intros acc Hacc.
    - cbn [fold_left List.length]. change (10 ^ Z.of_nat 0) with 1. lia.
    - cbn [forallb] in Hall. apply andb_prop in Hall as [Hc Hr].
      apply isdecimal_code in Hc.
      assert (Hd : 0 <= digit_value c <= 9) by (unfold digit_value; lia).
      cbn [fold_left List.length]. rewrite Nat2Z.inj_succ, Z.pow_succ_r by lia.
      specialize (IH Hr (10 * acc + digit_value c) ltac:(lia)).
      pose proof (Z.pow_pos_nonneg 10 (Z.of_nat (List.length r))
                    ltac:(lia) ltac:(lia)).
      nia. }
  specialize (G 0 ltac:(lia)). lia.
Qed.

(** The decimal text of a number that reaches the [k]-th power of ten has
    more than [k] digits. *)
Lemma str_of_Z_long (n : Z) (k : nat) :
  10 ^ Z.of_nat k <= n -> (k < List.length (str_of_Z n))%nat.
Proof.
  intros Hk.
  assert (Hn : 0 <= n).
  { pose proof (Z.pow_pos_nonneg 10 (Z.of_nat k) ltac:(lia) ltac:(lia)).
    lia. }
  destruct (str_of_Z_nonneg n Hn) as (_ & Hall & Hv).
  pose proof (decimal_value_bound _ Hall) as Hb. rewrite Hv in Hb.
  destruct (Nat.lt_ge_cases k (List.length (str_of_Z n))) as [H|H];
    [assumption|exfalso].
  pose proof (Z.pow_le_mono_r 10 (Z.of_nat (List.length (str_of_Z n)))
                (Z.of_nat k) ltac:(lia) ltac:(lia)).
  lia.
Qed.

(** Nines are one less than a power of ten. *)
Lemma decimal_value_nines (n : nat) :
  decimal_value (repeat "9"%char n) = 10 ^ Z.of_nat n - 1.
Proof.
  unfold decimal_value.
  assert (G : forall acc,
            fold_left (fun a c => 10 * a + digit_value c)
              (repeat "9"%char n) acc
            = (acc + 1) * 10 ^ Z.of_nat n - 1).
  { induction n as [|n IH]; intros acc.
    - cbn [repeat fold_left]. change (10 ^ Z.of_nat 0) with 1. lia.
    - cbn [repeat fold_left]. rewrite IH, Nat2Z.inj_succ, Z.pow_succ_r by lia.
      change (digit_value "9") with 9. lia. }
  rewrite G. lia.
Qed.

(** [int(str(n))] is [n], under any limit the digits of [n] fit. *)
Lemma int_str_of_Z (max_str_digits : nat) (n : Z) :
  int_with max_str_digits (str_of_Z n)
  = if exceeds_limit max_str_digits (List.length (str_of_Z (Z.abs n)))
    then Raise ValueError
    else Ok n.
Proof.
  destruct (Z_le_gt_dec 0 n) as [Hn|Hn].
  { destruct (str_of_Z_nonneg n Hn) as (Hne & Hall & Hv).
    rewrite int_with_decimal by assumption.
    now rewrite Hv, Z.abs_eq by lia. }
  destruct n as [|p|p]; try lia.
  destruct (str_of_Z_nonneg (Z.pos p) ltac:(lia)) as (Hne & Hall & Hv).
  assert (E : str_of_Z (Z.neg p) = "-"%char :: str_of_Z (Z.pos p))
    by reflexivity.
  change (Z.abs (Z.neg p)) with (Z.pos p).
  rewrite E. unfold int_with.
  assert (L : int_literal ("-"%char :: str_of_Z (Z.pos p)) = Some (Z.neg p)).
  { unfold int_literal. rewrite strip_with_fixed.
    - cbn [Ascii.eqb Bool.eqb]. rewrite int_digits_decimal by auto.
      cbn [option_map]. fold (decimal_value (str_of_Z (Z.pos p))).
      now rewrite Hv.
    - intros x [<-|Hx]; [reflexivity|].
      apply isdecimal_not_int_space. rewrite forallb_forall in Hall. auto. }
  rewrite L. cbn [filter]. change (isdecimal "-") with false. cbv iota.
  now rewrite (filter_isdecimal_all _ Hall).
Qed.

Lemma decimal_value_zeros (k : nat) (ds : str) :
  decimal_value (repeat "0"%char k ++ ds) = decimal_value ds.
Proof.
  unfold decimal_value. rewrite fold_left_app.
  replace (fold_left _ (repeat "0"%char k) 0) with 0; [reflexivity|].
  induction k as [|k IH]; [reflexivity|]. exact IH.
Qed.

Lemma format_03d_nonneg (n : Z) :
  0 <= n ->
  format_03d n <> [] /\ forallb isdecimal (format_03d n) = true
  /\ decimal_value (format_03d n) = n
  /\ (3 <= List.length (format_03d n))%nat.
Proof.
  intros Hn. destruct (str_of_Z_nonneg n Hn) as (Hne & Hall & Hv).
  unfold format_03d. rewrite Z.abs_eq by lia.
  destruct (Z.ltb_spec n 0); [lia|]. cbn [app List.length].
  split; [|split; [|split]].
  - destruct (str_of_Z n); [contradiction|]. now destruct (repeat _ _).
  - rewrite forallb_app, Hall, andb_true_r.
    apply forallb_forall. intros x Hx. apply repeat_spec in Hx. now subst.
  - now rewrite decimal_value_zeros.
  - rewrite length_app, repeat_length. lia.
Qed.

Section Names.

Context {W : Type} (host : Host W).

(** X10.  The name of a part holds its 1-based number: [part_] followed by
    at least three decimal digits whose value, read back with [int()], is
    [i + 1]; so two different parts never share a name.  Reading back
    gives [i + 1] under every limit on the digits of [int()] that the
    digits fit, and with the limit switched off. *)
Theorem part_name_round_trip (i : Z) :
  0 <= i ->
  exists digits,
    part_name i = py "part_" ++ digits /\
    (3 <= List.length digits)%nat /\
    forallb isdecimal digits = true /\
    decimal_value digits = i + 1 /\
    (forall max_str_digits,
        int_with max_str_digits digits
        = if exceeds_limit max_str_digits (List.length digits)
          then Raise ValueError
          else Ok (i + 1)) /\
    forall j, 0 <= j -> part_name j = part_name i -> j = i.
Proof.
  intros Hi. exists (format_03d (i + 1)).
  destruct (format_03d_nonneg (i + 1) ltac:(lia)) as (Hne & Hall & Hv & Hlen).
  split; [reflexivity|]. split; [assumption|]. split; [assumption|].
  split; [assumption|].
  split; [intros k; rewrite int_with_decimal by assumption; now rewrite Hv|].
  intros j Hj E. unfold part_name in E. apply app_inv_head in E.
  destruct (format_03d_nonneg (j + 1) ltac:(lia)) as (_ & _ & Hvj & _).
  rewrite E, Hv in Hvj. lia.
Qed.

(** X11.  The command for a part carries the part's window: it is an
    [ffmpeg] call whose [-ss] and [-t] arguments read back with [int()] as
    the start and the length of the part, whose [-i] argument is the input
    and whose output is the part's file, with a stream copy.  Reading back
    gives the number under every limit on the digits of [int()] that its
    digits fit, and with the limit switched off. *)
Theorem ffmpeg_cmd_round_trip (input_path out : str) (start duration : Z) :
  let cmd := ffmpeg_cmd input_path out start duration in
  let read max_str_digits (n : Z) :=
    if exceeds_limit max_str_digits (List.length (str_of_Z (Z.abs n)))
    then Raise ValueError
    else Ok n in
  nth_error cmd 0 = Some (py "ffmpeg") /\
  (nth_error cmd 1 = Some (py "-ss") /\
   forall max_str_digits,
     int_with max_str_digits (nth 2 cmd []) = read max_str_digits start) /\
  (nth_error cmd 3 = Some (py "-i") /\ nth_error cmd 4 = Some input_path) /\
  (nth_error cmd 5 = Some (py "-t") /\
   forall max_str_digits,
     int_with max_str_digits (nth 6 cmd []) = read max_str_digits duration) /\
  (nth_error cmd 7 = Some (py "-c") /\ nth_error cmd 8 = Some (py "copy")) /\
  nth_error cmd 9 = Some out.
Proof.
  cbv zeta. unfold ffmpeg_cmd. cbn [nth_error nth].
  repeat split; intros k; apply int_str_of_Z.
Qed.

End Names.

Lemma part_name_round_trip_witness :
  0 <= 11 /\
  exists digits,
    part_name 11 = py "part_" ++ digits /\
    (3 <= List.length digits)%nat /\
    forallb isdecimal digits = true /\
    decimal_value digits = 11 + 1 /\
    (forall max_str_digits,
        int_with max_str_digits digits
        = if exceeds_limit max_str_digits (List.length digits)
          then Raise ValueError
          else Ok (11 + 1)) /\
    forall j, 0 <= j -> part_name j = part_name 11 -> j = 11.
Proof.
  split; [lia|]. exact (part_name_round_trip 11 ltac:(lia)).
Defined.

(** * Further properties of [split_video] and [main] *)

(** The events that only a turn of the loop produces. *)
Abbreviation turn_event ev :=
  (match ev with
   | EvExists _ _ | EvRemove _ _ | EvWrite _ _ _ => True
   | EvRun cmd _ => hd [] cmd = py "ffmpeg"
   | _ => False
   end).

Section Turns.

Context {W : Type} (host : Host W).

Variables (input_path : str) (max_seconds : Z).

Abbreviation turn_of total root overwrite dry_run :=
  (part_run host input_path total max_seconds root overwrite dry_run).
Abbreviation command_of total root i :=
  (ffmpeg_cmd input_path (out_file_of host root i)
     (part_start max_seconds i) (part_duration total max_seconds i)).

(** Every event of the loop belongs to the turn of one of its indices. *)
Lemma loop_turns (total : Z) (root : str) (overwrite dry_run : bool)
    (idxs : list Z) (ev : event) :
  forall created w r w' t,
    split_parts host input_path total max_seconds root overwrite dry_run
      idxs created w = (r, w', t) ->
    In ev t ->
    exists before i after c1 r1 w1 t1 pre post,
      idxs = before ++ i :: after /\
      turn_of total root overwrite dry_run i c1 r1 w1 t1 /\
      In ev t1 /\ t = pre ++ t1 ++ post.
Proof.
  induction idxs as [|i rest IH]; intros created w r w' t H Hin.
  - injection H as <- <- <-. destruct Hin.
  - apply split_parts_step in H as (r1 & w1 & t1 & R & H).
    destruct H as [(c1 & t2 & -> & H & ->)|(_ & _ & _ & ->)].
    + apply in_app_or in Hin as [Hin|Hin].
      * exists [], i, rest, created, (Returned c1), w1, t1, [], t2.
        repeat split; assumption.
      * destruct (IH _ _ _ _ _ H Hin)
          as (before & k & after & c & rk & wk & tk & pre & post
              & -> & Rk & Hk & ->).
        exists (i :: before), k, after, c, rk, wk, tk, (t1 ++ pre), post.
        repeat split; try assumption. now rewrite <- app_assoc.
    + exists [], i, rest, created, r1, w1, t1, [], [].
      repeat split; try assumption. cbn [app]. now rewrite app_nil_r.
Qed.

(** Every existence test, removal, write and conversion of a run of
    [split_video] belongs to the turn of one part of its plan. *)
Lemma split_video_turns (given_root : option str) (overwrite dry_run : bool)
    (w w' : W) (r : outcome Summary) (t : list event) (ev : event) :
  split_video host input_path max_seconds given_root overwrite dry_run w
  = (r, w', t) ->
  In ev t -> turn_event ev ->
  exists total n i c1 r1 w1 t1 pre post,
    In (EvPrint (MsgTotal total)) t /\
    num_parts_of total max_seconds = Ok n /\
    0 <= i < n /\
    turn_of total (resolve_output_root host input_path given_root)
      overwrite dry_run i c1 r1 w1 t1 /\
    In ev t1 /\ t = pre ++ t1 ++ post.
Proof.
  intros H Hin Hev.
  apply split_video_inv in H as [(e & -> & F)|H].
  { exfalso. rewrite Forall_forall in F. apply F in Hin.
    destruct ev; cbn in Hin, Hev; try contradiction.
    subst cmd. discriminate Hev. }
  destruct H as (res & x & total & n & w1 & rl & tl
                 & Hx & Hfloor & Hn & Htd & Hloop & -> & ->).
  assert (Htl : In ev tl).
  { destruct Hin as [<-|Hin]; [discriminate Hev|].
    apply in_app_or in Hin as [Hin|Hin].
    { unfold preamble in Hin. cbn [In] in Hin.
      repeat (destruct Hin as [<-|Hin]; [contradiction|]). destruct Hin. }
    apply in_app_or in Hin as [Hin|Hin]; [assumption|].
    destruct rl; cbn [In] in Hin;
      repeat (destruct Hin as [<-|Hin]; [contradiction|]); destruct Hin. }
  destruct (loop_turns _ _ _ _ _ _ _ _ _ _ _ Hloop Htl)
    as (before & i & after & c1 & r1 & wi & t1 & pre & post
        & Hidx & R & Hin1 & ->).
  apply py_range_split in Hidx as (Hi & _ & _).
  exists total, n, i, c1, r1, wi, t1,
    (EvRun (ffprobe_cmd input_path) (Ok res)
     :: preamble input_path max_seconds
          (resolve_output_root host input_path given_root) total n ++ pre),
    (post ++ match rl with Returned _ => [EvPrint MsgDone] | _ => [] end).
  split; [right; apply in_or_app; left; unfold preamble; find_event|].
  repeat split; try assumption; try lia.
  cbn [app]. f_equal. now rewrite <- !app_assoc.
Qed.


(** X13.  Overwriting.  In a real run with overwriting, an output found
    in place is removed, or at least its removal is attempted, and its part
    is converted again whatever the removal answered. *)
Theorem overwrite_converts_again (given_root : option str) (w w' : W)
    (r : outcome Summary) (t : list event) (out : str) :
  split_video host input_path max_seconds given_root true false w
  = (r, w', t) ->
  In (EvExists out true) t ->
  exists total n i err res pre post,
    num_parts_of total max_seconds = Ok n /\
    0 <= i < n /\
    out = out_file_of host (resolve_output_root host input_path given_root) i /\
    t = pre ++ [EvExists out true; EvRemove out err;
                EvPrint (MsgExec
                  (command_of total
                     (resolve_output_root host input_path given_root) i));
                EvRun (command_of total
                         (resolve_output_root host input_path given_root) i)
                  res] ++ post.
Proof.
  intros H Hin.
  destruct (split_video_turns _ _ _ _ _ _ _ _ H Hin I)
    as (total & n & i & c1 & r1 & w1 & t1 & pre & post
        & _ & Hn & Hi & R & Hin1 & ->).
  set (root := resolve_output_root host input_path given_root) in *.
  exists total, n, i.
  assert (Hshape :
    out = out_file_of host root i /\
    exists err res tail,
      t1 = [EvMakeDirs (part_dir_of host root i) None;
            EvExists out true; EvRemove out err;
            EvPrint (MsgExec (command_of total root i));
            EvRun (command_of total root i) res] ++ tail).
  { inversion R; subst; try discriminate;
      try match goal with L : @lead_in _ _ _ _ _ _ |- _ => destruct L end;
      in_events; (split; [reflexivity|]); eexists _, _, _; reflexivity. }
  destruct Hshape as (-> & err & res & tail & ->).
  exists err, res, (pre ++ [EvMakeDirs (part_dir_of host root i) None]),
    (tail ++ post).
  repeat split; try assumption; try lia. now rewrite <- !app_assoc.
Qed.

(** X14.  The summary.  A run that returns hands back the floored
    duration's count of parts, the maximum it was given, the absolute
    output root and, in a real run, the file of every part in the order of
    the plan; in a dry run the list of outputs is empty. *)
Theorem summary_of_run (given_root : option str) (overwrite dry_run : bool)
    (w w' : W) (s : Summary) (t : list event) :
  split_video host input_path max_seconds given_root overwrite dry_run w
  = (Returned s, w', t) ->
  num_parts_of (total_seconds s) max_seconds = Ok (num_parts s) /\
  max_part_seconds s = max_seconds /\
  output_root s
  = path_abspath host (resolve_output_root host input_path given_root) /\
  outputs s
  = (if dry_run then []
     else map (out_file_of host
                 (resolve_output_root host input_path given_root))
            (py_range (num_parts s))) /\
  (dry_run = false ->
   Z.of_nat (List.length (outputs s)) = Z.max 0 (num_parts s)) /\
  last t (EvPrint MsgDone) = EvPrint MsgDone.
Proof.
  intros H. apply split_video_inv in H as [(e & [=] & _)|H].
  destruct H as (res & x & total & n & w1 & rl & tl
                 & Hx & Hfloor & Hn & Htd & Hloop & -> & Hr).
  destruct rl as [c| |]; try discriminate. injection Hr as ->.
  cbn [total_seconds num_parts max_part_seconds output_root outputs].
  apply loop_returned in Hloop. cbn [app] in Hloop. subst c.
  repeat split; try assumption.
  - intros ->. rewrite length_map. unfold py_range.
    rewrite length_map, length_seq. lia.
  - change (EvRun (ffprobe_cmd input_path) (Ok res)
            :: preamble input_path max_seconds
                 (resolve_output_root host input_path given_root) total n
               ++ tl ++ [EvPrint MsgDone])
      with ((EvRun (ffprobe_cmd input_path) (Ok res)
             :: preamble input_path max_seconds
                  (resolve_output_root host input_path given_root) total n)
            ++ tl ++ [EvPrint MsgDone]).
    now rewrite !app_assoc, last_last.
Qed.

(** X15.  [split_video] called with a maximum that is not positive.  With
    a maximum of zero the run raises right after the probe, before any
    directory is made, and what it raises is [ZeroDivisionError] when the
    probe gave a duration that has a floor.  With a negative maximum and
    a duration that is not negative the count of parts is not positive:
    the run makes the output root, converts nothing and returns a summary
    without outputs. *)
Theorem split_video_without_guard (given_root : option str)
    (overwrite dry_run : bool) (w w' : W) (r : outcome Summary)
    (t : list event) :
  split_video host input_path max_seconds given_root overwrite dry_run w
  = (r, w', t) ->
  max_seconds <= 0 ->
  (max_seconds = 0 ->
   exists e res,
     r = Raised e /\ t = [EvRun (ffprobe_cmd input_path) res] /\
     forall p x total,
       res = Ok p -> returncode p = 0 ->
       float_of_str host (strip (stdout p)) = Some x ->
       math_floor x = Ok total ->
       e = ZeroDivisionError) /\
  (forall s, r = Returned s -> 0 <= total_seconds s ->
     num_parts s <= 0 /\ outputs s = [] /\
     forall ev, In ev t -> ~ turn_event ev).
Proof.
  intros H Hmax. split.
  - intros ->. revert H.
    unfold split_video, ffprobe_duration_seconds, bind, run, raise, ret.
    destruct (subprocess_run host (ffprobe_cmd input_path) w) as [w0 [res|e]];
      cbv beta iota zeta.
    2:{ intros [= <- <- <-]. exists e, (Raise e).
        repeat split. discriminate. }
    destruct (Z.eqb_spec (returncode res) 0) as [Hrc|Hrc]; cbn [negb].
    2:{ intros [= <- <- <-]. exists RuntimeError, (Ok res).
        repeat split. intros p x total [= <-]. contradiction. }
    destruct (float_of_str host (strip (stdout res))) as [x|] eqn:Hx.
    2:{ intros [= <- <- <-]. exists RuntimeError, (Ok res).
        repeat split. intros p x total [= <-]. congruence. }
    cbv beta iota zeta.
    destruct (math_floor x) as [total|e] eqn:Hfl; cbn [lift];
      unfold ret, raise; cbv beta iota zeta.
    2:{ intros [= <- <- <-]. exists e, (Ok res).
        repeat split. intros p y total [= <-]. congruence. }
    unfold num_parts_of, true_divide. cbn [Z.eqb rbind lift]. unfold raise.
    cbv beta iota zeta.
    intros [= <- <- <-]. exists ZeroDivisionError, (Ok res).
    repeat split.
  - intros s -> Htot.
    pose proof H as Hrun.
    apply split_video_inv in H as [(e & [=] & _)|H].
    destruct H as (res & x & total & n & w1 & rl & tl
                   & Hx & Hfloor & Hn & Htd & Hloop & -> & Hr).
    destruct rl as [c| |]; try discriminate. injection Hr as ->.
    cbn [total_seconds num_parts outputs] in *.
    assert (Hneg : max_seconds < 0).
    { pose proof (num_parts_max_nonzero _ _ _ Hn). lia. }
    assert (Hle : n <= 0).
    { revert Hn. unfold num_parts_of, true_divide.
      destruct (Z.eqb_spec max_seconds 0); [lia|].
      destruct (Z.eqb_spec total 0) as [->|Hne].
      { cbn. now intros [= <-]. }
      destruct (round_quotient (Z.abs total) (Z.abs max_seconds))
        as [m e] eqn:E.
      assert (Hm : 0 <= m).
      { unfold round_quotient in E. injection E as <- _.
        assert (Hrhe : forall a b, 0 <= a -> 0 < b -> 0 <= round_half_even a b).
        { intros a b Ha Hb. unfold round_half_even.
          pose proof (Z.div_pos a b Ha Hb).
          repeat match goal with
                 | |- context [if ?c then _ else _] => destruct c
                 end; lia. }
        set (e0 := Z.max _ _).
        destruct (Z.leb_spec 0 e0); apply Hrhe; lia. }
      destruct (overflows m e); [discriminate|].
      rewrite (Z.sgn_pos total), (Z.sgn_neg max_seconds) by lia.
      replace (1 * -1 * m) with (- m) by lia.
      unfold rbind, math_ceil. intros Hq.
      apply (f_equal (fun q => match q with Ok v => v | Raise _ => 0 end))
        in Hq.
      cbv beta iota in Hq. subst n.
      destruct (Z.leb_spec 0 e).
      - pose proof (Z.pow_nonneg 2 e ltac:(lia)) as Hp.
        pose proof (Z.mul_nonneg_nonneg m (2 ^ e) Hm Hp). lia.
      - assert (HP : 0 < 2 ^ (- e)) by (apply Z.pow_pos_nonneg; lia).
        rewrite Z.opp_involutive.
        pose proof (Z.div_pos m (2 ^ (- e)) Hm HP). lia. }
    assert (Hrange : py_range n = []).
    { unfold py_range. now replace (Z.to_nat n) with 0%nat by lia. }
    rewrite Hrange in Hloop. injection Hloop as <- <- <-.
    split; [assumption|]. split; [reflexivity|].
    intros ev Hin Hev. cbn [app] in Hin.
    destruct Hin as [<-|Hin]; [discriminate Hev|].
    unfold preamble in Hin. cbn [In app] in Hin.
    repeat (destruct Hin as [<-|Hin]; [contradiction|]). destruct Hin.
Qed.

End Turns.

Section MainRuns.

Context {W : Type} (host : Host W).

(** The loop leaves with status 1 when it leaves at all. *)
Lemma loop_exit_status (input_path : str) (total max_seconds : Z) (root : str)
    (overwrite dry_run : bool) (idxs : list Z) :
  forall created w k w' t,
    split_parts host input_path total max_seconds root overwrite dry_run
      idxs created w = (Exited k, w', t) ->
    k = 1.
Proof.
  induction idxs as [|i rest IH]; intros created w k w' t H.
  - discriminate H.
  - apply split_parts_step in H as (r1 & w1 & t1 & R & H).
    destruct H as [(c1 & t2 & -> & H & ->)|(_ & <- & _ & _)]; [eauto|].
    inversion R; subst; try reflexivity;
      match goal with
      | H : match ?err with _ => _ end = Exited _ |- _ =>
          destruct err; discriminate H
      end.
Qed.

Lemma split_video_exit_status (input_path : str) (max_seconds : Z)
    (given_root : option str) (overwrite dry_run : bool) (w w' : W)
    (k : Z) (t : list event) :
  split_video host input_path max_seconds given_root overwrite dry_run w
  = (Exited k, w', t) ->
  k = 1.
Proof.
  intros H. apply split_video_inv in H as [(e & [=] & _)|H].
  destruct H as (res & x & total & n & w1 & rl & tl
                 & Hx & Hfloor & Hn & Htd & Hloop & _ & Hr).
  destruct rl as [c|e|k']; try discriminate. injection Hr as ->.
  eapply loop_exit_status, Hloop.
Qed.

Lemma bind_trace_prefix {A B : Type} (m : M W A) (k : A -> M W B) (w : W) :
  exists rest, snd (bind m k w) = snd (m w) ++ rest.
Proof.
  unfold bind. destruct (m w) as [[[a|e|c] w1] t1]; cbn [snd].
  - destruct (k a w1) as [[r w2] t2]. now exists t2.
  - exists []. now rewrite app_nil_r.
  - exists []. now rewrite app_nil_r.
Qed.

Lemma except_trace_prefix {A : Type} (m : M W A) (h : exn -> M W A) (w : W) :
  exists rest, snd (except_file_not_found m h w) = snd (m w) ++ rest.
Proof.
  unfold except_file_not_found.
  destruct (m w) as [[[a|e|c] w1] t1]; cbn [snd];
    try (exists []; now rewrite app_nil_r).
  destruct e; try (exists []; now rewrite app_nil_r).
  destruct (h FileNotFoundError w1) as [[r w2] t2]. now exists t2.
Qed.

(** A run of [split_video] starts with the probe. *)
Lemma split_video_first_event (input_path : str) (max_seconds : Z)
    (given_root : option str) (overwrite dry_run : bool) (w : W) :
  exists rest,
    snd (split_video host input_path max_seconds given_root overwrite
           dry_run w)
    = EvRun (ffprobe_cmd input_path)
        (snd (subprocess_run host (ffprobe_cmd input_path) w)) :: rest.
Proof.
  unfold split_video, ffprobe_duration_seconds.
  match goal with
  | |- context [bind (bind ?m ?k1) ?k2 w] =>
      destruct (bind_trace_prefix (bind m k1) k2 w) as (r1 & ->);
      destruct (bind_trace_prefix m k1 w) as (r2 & ->)
  end.
  unfold run. destruct (subprocess_run host (ffprobe_cmd input_path) w).
  cbn [snd app]. now eexists.
Qed.

(** X16.  The gate of [main].  Either the input exists and the maximum
    parses to a positive number of seconds, and then [main] goes on to
    [split_video], which starts with the probe; or [main] prints one line
    and exits with status 1, having only tested for the input: it has not
    probed, made a directory or changed the world. *)
Theorem main_gate (args : Args) (w w' : W) (r : outcome unit)
    (t : list event) :
  main host args w = (r, w', t) ->
  (path_exists host (arg_input args) w = true /\
   exists m rest,
     parse_duration_to_seconds (arg_max args) = Ok m /\ 0 < m /\
     t = EvExists (arg_input args) true
         :: EvRun (ffprobe_cmd (arg_input args))
              (snd (subprocess_run host (ffprobe_cmd (arg_input args)) w))
         :: rest)
  \/ (r = Exited 1 /\ w' = w /\
      exists found line,
        t = [EvExists (arg_input args) found; EvPrint line] /\
        (found = false
         \/ (exists e, parse_duration_to_seconds (arg_max args) = Raise e)
         \/ (exists m, parse_duration_to_seconds (arg_max args) = Ok m
                       /\ m <= 0))).
Proof.
  unfold main. unfold bind at 1. unfold os_path_exists. cbv beta iota zeta.
  destruct (path_exists host (arg_input args) w) eqn:Hex; cbn [negb];
    cbv beta iota zeta.
  2:{ unfold bind, print, sys_exit. intros [= <- <- <-]. right.
      repeat split. eexists _, _. split; [reflexivity|]. now left. }
  destruct (parse_duration_to_seconds (arg_max args)) as [m|e] eqn:Hp.
  2:{ unfold bind, print, sys_exit. intros [= <- <- <-]. right.
      repeat split. eexists _, _. split; [reflexivity|].
      right. left. now exists e. }
  destruct (Z.leb_spec m 0) as [Hm|Hm].
  { unfold bind, print, sys_exit. intros [= <- <- <-]. right.
    repeat split. eexists _, _. split; [reflexivity|].
    right. right. now exists m. }
  intros Hrun. left. split; [reflexivity|]. exists m.
  match type of Hrun with
  | context [except_file_not_found ?body ?h w] =>
      destruct (except_trace_prefix body h w) as (r1 & E1);
      destruct (bind_trace_prefix
                  (split_video host (arg_input args) m (arg_output_dir args)
                     (arg_overwrite args) (arg_dry_run args))
                  (fun summary =>
                     if arg_dry_run args
                     then bind (print MsgDryRunResult)
                            (fun _ => print (MsgSummary summary))
                     else ret tt) w) as (r2 & E2);
      destruct (split_video_first_event (arg_input args) m
                  (arg_output_dir args) (arg_overwrite args)
                  (arg_dry_run args) w) as (r3 & E3);
      destruct (except_file_not_found body h w) as [[r0 w1] t1]
  end.
  cbn [snd] in E1. rewrite E2, E3 in E1. subst t1.
  injection Hrun as <- <- <-. cbn [app].
  eexists. split; [reflexivity|]. split; [assumption|]. reflexivity.
Qed.

(** X17.  How [main] ends.  [main] never lets a [FileNotFoundError]
    through: a missing [ffprobe] or [ffmpeg] ends in exit status 1.  And
    when [main] exits, the status is 1. *)
Theorem main_outcome (args : Args) (w w' : W) (r : outcome unit)
    (t : list event) :
  main host args w = (r, w', t) ->
  r <> Raised FileNotFoundError /\ (forall k, r = Exited k -> k = 1).
Proof.
  unfold main. unfold bind at 1. unfold os_path_exists. cbv beta iota zeta.
  destruct (path_exists host (arg_input args) w); cbn [negb];
    cbv beta iota zeta.
  2:{ unfold bind, print, sys_exit. intros [= <- <- <-].
      split; [discriminate|]. now intros k [= <-]. }
  destruct (parse_duration_to_seconds (arg_max args)) as [m|e].
  2:{ unfold bind, print, sys_exit. intros [= <- <- <-].
      split; [discriminate|]. now intros k [= <-]. }
  destruct (Z.leb_spec m 0) as [Hm|Hm].
  { unfold bind, print, sys_exit. intros [= <- <- <-].
    split; [discriminate|]. now intros k [= <-]. }
  unfold except_file_not_found. unfold bind at 1.
  destruct (split_video host (arg_input args) m (arg_output_dir args)
              (arg_overwrite args) (arg_dry_run args) w)
    as [[[s|e|k] w1] t1] eqn:E.
  - destruct (arg_dry_run args); unfold bind, print, ret;
      intros [= <- <- <-]; split; try discriminate.
  - destruct e; unfold bind, print, sys_exit; intros [= <- <- <-];
      split; try discriminate; now intros k [= <-].
  - apply split_video_exit_status in E. subst k.
    intros [= <- <- <-]. split; [discriminate|]. now intros k [= <-].
Qed.

(** X18.  A probe that fails.  Past the gate of [main], when [ffprobe]
    answers with a code that is not zero, or prints what [float()] does not
    read, [main] ends with a [RuntimeError] that nothing catches: it does
    not exit with status 1 and prints nothing.  When [ffprobe] cannot be
    started, [main] prints the hint about the installation and exits with
    status 1.  In both cases no directory has been made. *)
Theorem main_probe_failure (args : Args) (w : W) (m : Z) :
  path_exists host (arg_input args) w = true ->
  parse_duration_to_seconds (arg_max args) = Ok m ->
  0 < m ->
  (forall w1 p,
      subprocess_run host (ffprobe_cmd (arg_input args)) w = (w1, Ok p) ->
      returncode p <> 0 \/ float_of_str host (strip (stdout p)) = None ->
      main host args w
      = (Raised RuntimeError, w1,
         [EvExists (arg_input args) true;
          EvRun (ffprobe_cmd (arg_input args)) (Ok p)])) /\
  (forall w1,
      subprocess_run host (ffprobe_cmd (arg_input args)) w
      = (w1, Raise FileNotFoundError) ->
      main host args w
      = (Exited 1, w1,
         [EvExists (arg_input args) true;
          EvRun (ffprobe_cmd (arg_input args)) (Raise FileNotFoundError);
          EvPrint (MsgInstallHint FileNotFoundError)])).
Proof.
  intros Hex Hp Hm.
  assert (Hgate : (m <=? 0) = false) by lia.
  split.
  - intros w1 p Hrun Hbad.
    unfold main, except_file_not_found, split_video,
      ffprobe_duration_seconds, bind, os_path_exists, run, raise.
    cbv beta iota zeta. rewrite Hex, Hp. cbn [negb]. rewrite Hgate, Hrun.
    cbv beta iota zeta.
    destruct (Z.eqb_spec (returncode p) 0) as [Hrc|Hrc]; cbn [negb];
      [|reflexivity].
    destruct Hbad as [Hbad| ->]; [contradiction|reflexivity].
  - intros w1 Hrun.
    unfold main, except_file_not_found, split_video,
      ffprobe_duration_seconds, bind, os_path_exists, run, raise, print,
      sys_exit.
    cbv beta iota zeta. rewrite Hex, Hp. cbn [negb]. rewrite Hgate, Hrun.
    reflexivity.
Qed.

(** X19.  A maximum too long to print.  When the maximum has more than
    4300 digits, line 81 cannot format it: a run of [split_video] never
    returns and never exits, it raises.  When it gets as far as printing
    the total, it has probed, made the output root and printed two lines,
    and what it raises is [ValueError]; no part is ever tested, converted
    or written. *)
Theorem overlong_max_raises (input_path : str) (max_seconds : Z)
    (given_root : option str) (overwrite dry_run : bool) (w w' : W)
    (r : outcome Summary) (t : list event) :
  split_video host input_path max_seconds given_root overwrite dry_run w
  = (r, w', t) ->
  (default_max_str_digits < List.length (str_of_Z (Z.abs max_seconds)))%nat ->
  (exists e, r = Raised e) /\
  Forall (early input_path) t /\
  forall total,
    In (EvPrint (MsgTotal total)) t ->
    r = Raised ValueError /\
    exists res,
      t = [EvRun (ffprobe_cmd input_path) (Ok res);
           EvMakeDirs (resolve_output_root host input_path given_root) None;
           EvPrint (MsgSource input_path); EvPrint (MsgTotal total)].
Proof.
  intros H Hlong.
  assert (Htext : str_checked max_seconds = Raise ValueError).
  { unfold str_checked. rewrite exceeds_limit_default.
    now apply Nat.ltb_lt in Hlong as ->. }
  revert H.
  unfold split_video, ffprobe_duration_seconds, bind, run, ensure_dir, print,
    answer, raise, ret.
  destruct (subprocess_run host (ffprobe_cmd input_path) w) as [w0 [res|e]];
    cbv beta iota zeta.
  2:{ intros [= <- <- <-]. split; [now eexists|]. split.
      - repeat constructor.
      - intros total Hin. in_events. }
  destruct (Z.eqb_spec (returncode res) 0) as [Hrc|Hrc]; cbn [negb];
    cbv beta iota zeta.
  2:{ intros [= <- <- <-]. split; [now eexists|]. split.
      - repeat constructor.
      - intros total Hin. in_events. }
  destruct (float_of_str host (strip (stdout res))) as [x|] eqn:Hx;
    cbv beta iota zeta.
  2:{ intros [= <- <- <-]. split; [now eexists|]. split.
      - repeat constructor.
      - intros total Hin. in_events. }
  destruct (math_floor x) as [total|e] eqn:Hfloor; cbn [lift];
    unfold ret, raise; cbv beta iota zeta.
  2:{ intros [= <- <- <-]. split; [now eexists|]. split.
      - repeat constructor.
      - intros total Hin. in_events. }
  destruct (num_parts_of total max_seconds) as [n|e] eqn:Hn; cbn [lift];
    unfold ret, raise; cbv beta iota zeta.
  2:{ intros [= <- <- <-]. split; [now eexists|]. split.
      - repeat constructor.
      - intros total' Hin. in_events. }
  destruct (makedirs host (resolve_output_root host input_path given_root) w0)
    as [w1 [e|]]; cbv beta iota zeta.
  { intros [= <- <- <-]. split; [now eexists|]. split.
    - repeat constructor.
    - intros total' Hin. in_events. }
  destruct (timedelta_seconds total) as [[]|e] eqn:Htd; cbn [lift];
    unfold ret, raise; cbv beta iota zeta.
  2:{ intros [= <- <- <-]. split; [now eexists|]. split.
      - repeat constructor.
      - intros total' Hin. in_events. }
  rewrite Htext. cbn [lift]. unfold raise. cbv beta iota zeta.
  intros [= <- <- <-]. split; [now eexists|]. split.
  - repeat constructor.
  - intros total' Hin. in_events. split; [reflexivity|]. now exists res.
Qed.

End MainRuns.

(** ** Further runs on the concrete host *)


Lemma overwrite_converts_again_witness :
  In (EvExists DemoRuns.second_out true) (snd DemoRuns.overwrite_run)
  /\ exists total n i err res pre post,
      num_parts_of total 60 = Ok n /\
      0 <= i < n /\
      DemoRuns.second_out
      = out_file_of Demo.host
          (resolve_output_root Demo.host Demo.talk None) i /\
      snd DemoRuns.overwrite_run
      = pre ++ [EvExists DemoRuns.second_out true;
                EvRemove DemoRuns.second_out err;
                EvPrint (MsgExec
                  (ffmpeg_cmd Demo.talk
                     (out_file_of Demo.host
                        (resolve_output_root Demo.host Demo.talk None) i)
                     (part_start 60 i) (part_duration total 60 i)));
                EvRun (ffmpeg_cmd Demo.talk
                         (out_file_of Demo.host
                            (resolve_output_root Demo.host Demo.talk None) i)
                         (part_start 60 i) (part_duration total 60 i))
                  res] ++ post.
Proof.
  assert (Hin : In (EvExists DemoRuns.second_out true)
                  (snd DemoRuns.overwrite_run))
    by (vm_compute; find_event).
  split; [exact Hin|].
  exact (overwrite_converts_again Demo.host Demo.talk 60 None _ _ _ _ _
           (run_eta DemoRuns.overwrite_run) Hin).
Defined.

Lemma summary_of_run_witness :
  fst (fst DemoRuns.first_run) = Returned DemoRuns.first_summary
  /\ num_parts_of 125 60 = Ok 3
  /\ outputs DemoRuns.first_summary
     = map (out_file_of Demo.host
              (resolve_output_root Demo.host Demo.talk None))
         (py_range 3)
  /\ last (snd DemoRuns.first_run) (EvPrint MsgDone) = EvPrint MsgDone.
Proof.
  assert (E : split_video Demo.host Demo.talk 60 None false false
                (Demo.fresh "125.3" [])
              = (Returned DemoRuns.first_summary,
                 snd (fst DemoRuns.first_run), snd DemoRuns.first_run))
    by (vm_compute; reflexivity).
  split; [exact (f_equal (fun x => fst (fst x)) E)|].
  destruct (summary_of_run Demo.host Demo.talk 60 None false false _ _ _ _ E)
    as (Hn & _ & _ & Hout & _ & Hlast).
  exact (conj Hn (conj Hout Hlast)).
Defined.

Lemma split_video_without_guard_witness :
  fst (fst DemoRuns.negative_max_run) = Returned DemoRuns.negative_max_summary
  /\ -60 <= 0
  /\ 0 <= total_seconds DemoRuns.negative_max_summary
  /\ num_parts DemoRuns.negative_max_summary <= 0
  /\ outputs DemoRuns.negative_max_summary = []
  /\ forall ev, In ev (snd DemoRuns.negative_max_run) -> ~ turn_event ev.
Proof.
  assert (E : fst (fst DemoRuns.negative_max_run)
              = Returned DemoRuns.negative_max_summary)
    by (vm_compute; reflexivity).
  split; [exact E|]. split; [lia|]. split; [cbn; lia|].
  exact (proj2 (split_video_without_guard Demo.host Demo.talk (-60) None
                  false false _ _ _ _ (run_eta DemoRuns.negative_max_run)
                  ltac:(lia))
           _ E ltac:(cbn; lia)).
Defined.

Lemma main_gate_witness :
  (path_exists Demo.host Demo.talk (Demo.fresh "125.3" []) = true /\
   exists m rest,
     parse_duration_to_seconds (py "1m") = Ok m /\ 0 < m /\
     snd DemoRuns.one_minute_dry_run
     = EvExists Demo.talk true
       :: EvRun (ffprobe_cmd Demo.talk)
            (snd (subprocess_run Demo.host (ffprobe_cmd Demo.talk)
                    (Demo.fresh "125.3" [])))
       :: rest)
  \/ (fst (fst DemoRuns.one_minute_dry_run) = Exited 1 /\
      snd (fst DemoRuns.one_minute_dry_run) = Demo.fresh "125.3" [] /\
      exists found line,
        snd DemoRuns.one_minute_dry_run
        = [EvExists Demo.talk found; EvPrint line] /\
        (found = false
         \/ (exists e, parse_duration_to_seconds (py "1m") = Raise e)
         \/ (exists m, parse_duration_to_seconds (py "1m") = Ok m
                       /\ m <= 0))).
Proof.
  exact (main_gate Demo.host DemoRuns.one_minute_dry _ _ _ _
           (run_eta DemoRuns.one_minute_dry_run)).
Defined.

Lemma main_outcome_witness :
  fst (fst DemoRuns.failing_main_run) <> Raised FileNotFoundError
  /\ forall k, fst (fst DemoRuns.failing_main_run) = Exited k -> k = 1.
Proof.
  exact (main_outcome Demo.host DemoRuns.sixty _ _ _ _
           (run_eta DemoRuns.failing_main_run)).
Defined.

Lemma main_probe_failure_witness :
  path_exists Demo.host (arg_input DemoRuns.sixty) DemoRuns.no_duration = true
  /\ parse_duration_to_seconds (arg_max DemoRuns.sixty) = Ok 60
  /\ 0 < 60
  /\ main Demo.host DemoRuns.sixty DemoRuns.no_duration
     = (Raised RuntimeError, DemoRuns.no_duration,
        [EvExists Demo.talk true;
         EvRun (ffprobe_cmd Demo.talk) (Ok DemoRuns.no_duration_answer)]).
Proof.
  split; [reflexivity|]. split; [reflexivity|]. split; [lia|].
  exact (proj1 (main_probe_failure Demo.host DemoRuns.sixty
                  DemoRuns.no_duration 60 eq_refl eq_refl ltac:(lia))
           DemoRuns.no_duration DemoRuns.no_duration_answer eq_refl
           (or_intror eq_refl)).
Defined.

(** [--max 99...9h], with 4300 nines, is accepted by the parser, and its
    value has more digits than can be printed. *)
Lemma overlong_max_parsed :
  parse_duration_to_seconds (repeat "9"%char 4300 ++ py "h")
  = Ok DemoRuns.overlong_max.
Proof.
  replace (Ok DemoRuns.overlong_max)
    with (if (default_max_str_digits
              <? List.length (repeat "9"%char 4300))%nat
          then Raise ValueError
          else Ok (decimal_value (repeat "9"%char 4300) * 3600)).
  - apply parse_suffixed with (suffix := py "h").
    + discriminate.
    + now apply forallb_repeat.
    + apply normal_decimal_suffix; [now apply forallb_repeat|].
      intros x [<-|[]]. split; reflexivity.
    + reflexivity.
    + reflexivity.
    + cbv zeta. rewrite !endswith_app. reflexivity.
  - rewrite repeat_length, decimal_value_nines.
    change (default_max_str_digits <? 4300)%nat with false.
    reflexivity.
Qed.

Lemma overlong_max_long :
  (default_max_str_digits
   < List.length (str_of_Z (Z.abs DemoRuns.overlong_max)))%nat.
Proof.
  apply str_of_Z_long. unfold DemoRuns.overlong_max.
  change (Z.of_nat default_max_str_digits) with 4300.
  pose proof (Z.pow_le_mono_r 10 1 4300 ltac:(lia) ltac:(lia)) as H.
  change (10 ^ 1) with 10 in H.
  set (p := 10 ^ 4300) in *. clearbody p. lia.
Qed.

Lemma overlong_max_raises_witness :
  parse_duration_to_seconds (repeat "9"%char 4300 ++ py "h")
  = Ok DemoRuns.overlong_max
  /\ (default_max_str_digits
      < List.length (str_of_Z (Z.abs DemoRuns.overlong_max)))%nat
  /\ (exists e,
        fst (fst (split_video Demo.host Demo.talk DemoRuns.overlong_max None
                    false false (Demo.fresh "125.3" [])))
        = Raised e)
  /\ Forall (early Demo.talk)
       (snd (split_video Demo.host Demo.talk DemoRuns.overlong_max None
               false false (Demo.fresh "125.3" []))).
Proof.
  split; [exact overlong_max_parsed|]. split; [exact overlong_max_long|].
  pose proof (overlong_max_raises Demo.host Demo.talk DemoRuns.overlong_max
                None false false (Demo.fresh "125.3" []) _ _ _
                (run_eta (split_video Demo.host Demo.talk
                            DemoRuns.overlong_max None false false
                            (Demo.fresh "125.3" [])))
                overlong_max_long) as T.
  exact (conj (proj1 T) (proj1 (proj2 T))).
Defined.
